(** * Pair-trading strategy: a shallow embedding of
      [src/strategies/pair_trading.py] and its checked properties.

    Python floats and numpy float64 values are IEEE-754 binary64 numbers;
    they are modelled by Rocq's primitive floats, whose operations are the
    same binary64 operations (one NaN, round to nearest even).  Dictionaries
    that are only looked up and assigned are [gmap]s; the [bar_type]
    dictionary of the configuration is iterated in insertion order, so it is
    an association list.  The strategy object is mutated by its methods and
    may raise: methods are computations in a small state-and-exception
    monad over the strategy record.  The cache, the account and numpy /
    statsmodels are collaborators outside the repository: the cache is an
    explicit read-only argument, the numerical routines are the fields of a
    class. *)

From Stdlib Require Import Floats ZArith Lia.
From stdpp Require Import gmap strings list.

Set Warnings "-inexact-float".

(** ** Data model *)

Inductive OrderSide := BUY | SELL.

Abbreviation InstrumentId := string.
Abbreviation BarType := string.
Abbreviation Position := nat.

(** A bar; the strategy reads nothing but [bar.close.as_double()]. *)
Record Bar := { close : float }.

(** An instrument as far as the strategy reads it: the attribute
    [maquantity] of line 140.  [None] stands for an object on which the
    attribute lookup raises [AttributeError]. *)
Record Instrument := { maquantity : option float }.

(** The exceptions that the modelled code paths can raise.  [LibraryError]
    stands for whatever [coint_johansen] raises. *)
Inductive exn :=
| ValueError | KeyError | IndexError | AttributeError | ZeroDivisionError
| OverflowError | LibraryError.

(** [PairTradingStrategyConfig], lines 17-27. *)
Record PairTradingStrategyConfig := {
  instrument_id_1 : InstrumentId;
  instrument_id_2 : InstrumentId;
  bar_type : list (InstrumentId * BarType);
  formation_window : Z;
  zscore_threshold : float;
  exit_zscore_threshold : float;
  capital_to_risk_ratio : float
}.

(** The keyword constructor of the frozen struct: the four last fields have
    defaults, and the class body declares no validation hook. *)
Definition new_config (id1 id2 : InstrumentId) (bt : list (InstrumentId * BarType))
    (fw : option Z) (zt ezt crr : option float)
  : exn + PairTradingStrategyConfig :=
  inr {| instrument_id_1 := id1;
         instrument_id_2 := id2;
         bar_type := bt;
         formation_window := default 200%Z fw;
         zscore_threshold := default 2.0%float zt;
         exit_zscore_threshold := default 0.5%float ezt;
         capital_to_risk_ratio := default 0.01%float crr |}.

(** One cell of a row of [calc_pd]: the code stores [Bar] objects (or
    [None]) in the two first columns and floats in the others. *)
Inductive Cell :=
| CellBar (b : option Bar)
| CellFloat (x : float).

(** What the strategy asks of the execution layer. *)
Inductive Event :=
| OrderCreated (i : InstrumentId) (side : OrderSide) (quantity : float)
| PositionClosed (p : Position).

(** The read-only view of the cache during one call of [on_bar]:
    [bars bt] is [cache.bars(bt)], [bar bt] is [cache.bar(bt)] (the latest
    bar, or [None]), [accounts] lists the total balance of each account. *)
Record Cache := {
  bars : BarType -> list Bar;
  bar : BarType -> option Bar;
  positions_open : list Position;
  accounts : list float
}.

(** The attributes of [PairTradingStrategy]; [log] collects the exceptions
    reported through [self.log.error], [events] the calls to the order
    factory and to [close_position]. *)
Record Strategy := {
  config : PairTradingStrategyConfig;
  instrument1 : option Instrument;
  instrument2 : option Instrument;
  spread : list float;
  betas : gmap InstrumentId float;
  calc_pd : list (list Cell);
  log : list exn;
  events : list Event
}.

Definition set_spread (v : list float) (s : Strategy) : Strategy :=
  {| config := config s; instrument1 := instrument1 s; instrument2 := instrument2 s;
     spread := v; betas := betas s; calc_pd := calc_pd s; log := log s;
     events := events s |}.

Definition set_betas (v : gmap InstrumentId float) (s : Strategy) : Strategy :=
  {| config := config s; instrument1 := instrument1 s; instrument2 := instrument2 s;
     spread := spread s; betas := v; calc_pd := calc_pd s; log := log s;
     events := events s |}.

Definition add_row (r : list Cell) (s : Strategy) : Strategy :=
  {| config := config s; instrument1 := instrument1 s; instrument2 := instrument2 s;
     spread := spread s; betas := betas s; calc_pd := calc_pd s ++ [r]; log := log s;
     events := events s |}.

Definition log_error (e : exn) (s : Strategy) : Strategy :=
  {| config := config s; instrument1 := instrument1 s; instrument2 := instrument2 s;
     spread := spread s; betas := betas s; calc_pd := calc_pd s; log := log s ++ [e];
     events := events s |}.

Definition emit (ev : Event) (s : Strategy) : Strategy :=
  {| config := config s; instrument1 := instrument1 s; instrument2 := instrument2 s;
     spread := spread s; betas := betas s; calc_pd := calc_pd s; log := log s;
     events := events s ++ [ev] |}.

(** ** The state-and-exception monad of the methods *)

Definition M (A : Type) : Type := Strategy -> Strategy * (exn + A).

Definition ret {A} (a : A) : M A := fun s => (s, inr a).
Definition raise {A} (e : exn) : M A := fun s => (s, inl e).
Definition bind {A B} (m : M A) (k : A -> M B) : M B :=
  fun s => match m s with
           | (s', inl e) => (s', inl e)
           | (s', inr a) => k a s'
           end.
Definition get : M Strategy := fun s => (s, inr s).
Definition modify (f : Strategy -> Strategy) : M unit := fun s => (f s, inr tt).
Definition lift {A} (r : exn + A) : M A := fun s => (s, r).

(** An [Optional] attribute or a lookup: [None] raises [e]. *)
Definition or_raise {A} (e : exn) (o : option A) : exn + A :=
  match o with Some a => inr a | None => inl e end.

Declare Scope py_scope.
Delimit Scope py_scope with py.
Notation "x <- m ;; k" := (bind m (fun x => k))
  (at level 100, m at next level, right associativity) : py_scope.
Notation "m ;;; k" := (bind m (fun _ => k))
  (at level 100, right associativity) : py_scope.
Open Scope py_scope.

(** ** Python containers *)

(** [l[start:]] for a Python list. *)
Definition slice_from {A} (start : Z) (l : list A) : list A :=
  if (start <? 0)%Z
  then drop (Z.to_nat (Z.max 0 (Z.of_nat (length l) + start))) l
  else drop (Z.to_nat start) l.

(** [d.append(x)] for a [deque(maxlen=w)]. *)
Definition deque_append (w : Z) (x : float) (d : list float) : list float :=
  let d' := d ++ [x] in
  drop (length d' - Z.to_nat w) d'.

(** [d[k]] for the insertion-ordered dictionary [bar_type]. *)
Fixpoint dict_get {V} (d : list (InstrumentId * V)) (k : InstrumentId) : option V :=
  match d with
  | [] => None
  | (k', v) :: r => if decide (k' = k) then Some v else dict_get r k
  end.

(** Python's [a / b] on floats. *)
Definition py_div (a b : float) : exn + float :=
  if PrimFloat.eqb b 0 then inl ZeroDivisionError else inr (a / b)%float.

(** ** Numerical libraries *)

(** [numpy.mean], [numpy.std(_, ddof=1)] and statsmodels' [coint_johansen]
    are not code of this repository.  The strategy is parametric in them:
    [coint_johansen] receives the price columns of the data frame and
    either raises or returns the matrix [evec] (a list of rows). *)
Class Numerics := {
  np_mean : list float -> float;
  np_std : list float -> float;
  coint_johansen : list (list float) -> exn + list (list float)
}.

(** ** Signals *)

(** The four outcomes of the decision of lines 72-80, named as in the
    specification. *)
Inductive Signal := HOLD | ENTER_LONG_SPREAD | ENTER_SHORT_SPREAD | EXIT.

(** Which branch of lines 72-80 is taken, given the value of
    [_has_open_positions()] and the z-score. *)
Definition on_bar_signal (cfg : PairTradingStrategyConfig)
    (has_open : bool) (z_score : float) : Signal :=
  if has_open then
    if (abs z_score <? exit_zscore_threshold cfg)%float then EXIT else HOLD
  else
    if (zscore_threshold cfg <? z_score)%float then ENTER_SHORT_SPREAD
    else if (z_score <? - zscore_threshold cfg)%float then ENTER_LONG_SPREAD
    else HOLD.

(** ** The methods of [PairTradingStrategy] *)

(** [__init__], lines 35-44.  [deque(maxlen=n)] converts [n] to a signed
    64-bit size and raises [OverflowError] when it does not fit, then
    raises [ValueError] on a negative [n]; the data frame starts without
    rows. *)
Definition PairTradingStrategy_init (cfg : PairTradingStrategyConfig)
  : exn + Strategy :=
  if ((formation_window cfg <? -9223372036854775808)
      || (9223372036854775807 <? formation_window cfg))%Z then inl OverflowError
  else if (formation_window cfg <? 0)%Z then inl ValueError
  else inr {| config := cfg;
              instrument1 := None;
              instrument2 := None;
              spread := [];
              betas := <[instrument_id_2 cfg := (-1.0)%float]>
                         (<[instrument_id_1 cfg := 1.0%float]> ∅);
              calc_pd := [];
              log := [];
              events := [] |}.

(** Building the engine: the configuration, then the strategy. *)
Definition build_engine (id1 id2 : InstrumentId) (bt : list (InstrumentId * BarType))
    (fw : option Z) (zt ezt crr : option float) : exn + Strategy :=
  match new_config id1 id2 bt fw zt ezt crr with
  | inl e => inl e
  | inr cfg => PairTradingStrategy_init cfg
  end.

(** [_has_enough_bars], lines 147-152. *)
Fixpoint has_enough_loop (c : Cache) (w : Z) (bts : list BarType) : bool :=
  match bts with
  | [] => true
  | bt :: r =>
      if (Z.of_nat (length (bars c bt)) <? w)%Z then false
      else has_enough_loop c w r
  end.

Definition _has_enough_bars (c : Cache) (cfg : PairTradingStrategyConfig) : bool :=
  has_enough_loop c (formation_window cfg) (map snd (bar_type cfg)).

(** [_has_open_positions], lines 154-156. *)
Definition _has_open_positions (c : Cache) : bool :=
  (0 <? length (positions_open c))%nat.

(** [_close_all_positions], lines 142-145. *)
Fixpoint close_loop (ps : list Position) : M unit :=
  match ps with
  | [] => ret tt
  | p :: r => modify (emit (PositionClosed p)) ;;; close_loop r
  end.

Definition _close_all_positions (c : Cache) : M unit :=
  close_loop (positions_open c).

(** [get_current_equity], lines 122-124. *)
Definition get_current_equity (c : Cache) : exn + float :=
  or_raise IndexError (head (accounts c)).

(** The expression assigned to [quantity] on line 138. *)
Definition leg_quantity (price capital_to_risk beta long_short_ratio : float)
  : exn + float :=
  match py_div price (capital_to_risk / 2)%float with
  | inl e => inl e
  | inr q => inr (q * beta * long_short_ratio)%float
  end.

(** The expression assigned to [order_side] on line 139. *)
Definition leg_side (beta : float) : OrderSide :=
  if (0 <? beta)%float then BUY else SELL.

(** [open_positions], lines 126-140.  [quantity] is computed and not read
    again: the order is created with [abs(self.instrument1.maquantity)]. *)
Fixpoint open_loop (c : Cache) (capital_to_risk long_short_ratio : float)
    (items : list (InstrumentId * BarType)) : M unit :=
  match items with
  | [] => ret tt
  | (_instrument_id, bt) :: r =>
      s <- get ;;
      beta <- lift (or_raise KeyError (betas s !! _instrument_id)) ;;
      b <- lift (or_raise AttributeError (bar c bt)) ;;
      quantity <- lift (leg_quantity (close b) capital_to_risk beta long_short_ratio) ;;
      let order_side := leg_side beta in
      i1 <- lift (or_raise AttributeError (instrument1 s)) ;;
      mq <- lift (or_raise AttributeError (maquantity i1)) ;;
      modify (emit (OrderCreated _instrument_id order_side (abs mq))) ;;;
      open_loop c capital_to_risk long_short_ratio r
  end.

Definition open_positions (c : Cache) (orderside : OrderSide) : M unit :=
  let long_short_ratio := match orderside with BUY => 1%float | SELL => (-1)%float end in
  current_equity <- lift (get_current_equity c) ;;
  s <- get ;;
  let capital_to_risk := (capital_to_risk_ratio (config s) * current_equity)%float in
  open_loop c capital_to_risk long_short_ratio (bar_type (config s)).

(** The action attached to each branch of lines 72-80. *)
Definition act (c : Cache) (sg : Signal) : M unit :=
  match sg with
  | EXIT => _close_all_positions c
  | ENTER_SHORT_SPREAD => open_positions c SELL
  | ENTER_LONG_SPREAD => open_positions c BUY
  | HOLD => ret tt
  end.

(** [pd.DataFrame(data)] for a dictionary of lists: the columns must have
    one length. *)
Definition DataFrame (data : list (InstrumentId * list float))
  : exn + list (InstrumentId * list float) :=
  match data with
  | [] => inr data
  | (_, col) :: r =>
      if forallb (fun '(_, col') => (length col' =? length col)%nat) r
      then inr data else inl ValueError
  end.

(** [m[:, 0]] for a matrix given by its rows. *)
Fixpoint column0 (m : list (list float)) : exn + list float :=
  match m with
  | [] => inr []
  | row :: r =>
      match head row, column0 r with
      | Some x, inr xs => inr (x :: xs)
      | None, _ => inl IndexError
      | _, inl e => inl e
      end
  end.

(** Lines 95-98: the closes of the window, per instrument. *)
Definition collect_data (c : Cache) (cfg : PairTradingStrategyConfig)
  : list (InstrumentId * list float) :=
  map (fun '(instrument_id, bt) =>
         (instrument_id,
          map close (slice_from (- formation_window cfg) (bars c bt))))
      (bar_type cfg).

(** Lines 101-105: the part of the [try] block before the loop; it leaves
    the strategy untouched. *)
Definition estimate `{Numerics} (data : list (InstrumentId * list float))
  : exn + (list InstrumentId * list float) :=
  match DataFrame data with
  | inl e => inl e
  | inr df_prices =>
      match coint_johansen (map snd df_prices) with
      | inl e => inl e
      | inr m =>
          match column0 m with
          | inl e => inl e
          | inr evec =>
              match last evec with
              | None => inl IndexError
              | Some last_coeff =>
                  inr (map fst df_prices,
                       map (fun e => (- e / last_coeff)%float) evec)
              end
          end
      end
  end.

(** Lines 106-107: the loop over [enumerate(df_prices.columns)]. *)
Fixpoint assign_loop (i : nat) (columns : list InstrumentId)
    (betas_array : list float) : M unit :=
  match columns with
  | [] => ret tt
  | instrument_id :: r =>
      v <- lift (or_raise IndexError (betas_array !! i)) ;;
      modify (fun s => set_betas (<[instrument_id := v]> (betas s)) s) ;;;
      assign_loop (S i) r betas_array
  end.

(** The body of the [try] block of lines 100-107. *)
Definition try_update_betas `{Numerics} (c : Cache) : M unit :=
  s <- get ;;
  r <- lift (estimate (collect_data c (config s))) ;;
  assign_loop 0 (fst r) (snd r).

(** [_update_betas], lines 93-109: [except Exception] logs and goes on. *)
Definition _update_betas `{Numerics} (c : Cache) : M unit :=
  fun s => match try_update_betas c s with
           | (s', inl e) => (log_error e s', inr tt)
           | (s', inr _) => (s', inr tt)
           end.

(** [self.betas.get(instrument_id, 0.0)], line 119. *)
Definition betas_get (b : gmap InstrumentId float) (instrument_id : InstrumentId)
  : float :=
  default 0%float (b !! instrument_id).

(** The loop of lines 113-119; [None] is the early [return] of line 117. *)
Fixpoint spread_loop (c : Cache) (b : gmap InstrumentId float)
    (items : list (InstrumentId * BarType)) (spread_value : float)
  : option float :=
  match items with
  | [] => Some spread_value
  | (instrument_id, bt) :: r =>
      match bar c bt with
      | None => None
      | Some latest_bar =>
          let price := close latest_bar in
          spread_loop c b r (spread_value + betas_get b instrument_id * price)%float
      end
  end.

(** [_update_spread], lines 111-120. *)
Definition _update_spread (c : Cache) : M unit :=
  s <- get ;;
  match spread_loop c (betas s) (bar_type (config s)) 0%float with
  | None => ret tt
  | Some spread_value =>
      modify (fun s => set_spread
                (deque_append (formation_window (config s)) spread_value (spread s)) s)
  end.

(** Lines 82-91: the row appended to [calc_pd]. *)
Definition append_row (c : Cache) (spread_array : list float) (z_score : float)
  : M unit :=
  s <- get ;;
  let cfg := config s in
  bt1 <- lift (or_raise KeyError (dict_get (bar_type cfg) (instrument_id_1 cfg))) ;;
  bt2 <- lift (or_raise KeyError (dict_get (bar_type cfg) (instrument_id_2 cfg))) ;;
  b1 <- lift (or_raise KeyError (betas s !! instrument_id_1 cfg)) ;;
  b1' <- lift (or_raise KeyError (betas s !! instrument_id_1 cfg)) ;;
  x <- lift (or_raise IndexError (last spread_array)) ;;
  modify (add_row [CellBar (bar c bt1); CellBar (bar c bt2);
                   CellFloat b1; CellFloat b1'; CellFloat x; CellFloat z_score]).

(** Lines 65-91: what [on_bar] does once the window is full. *)
Definition on_full_window `{Numerics} (c : Cache) : M unit :=
  s <- get ;;
  let spread_array := spread s in
  let mean_spread := np_mean spread_array in
  let std_spread := np_std spread_array in
  if PrimFloat.eqb std_spread 0 then ret tt
  else
    x <- lift (or_raise IndexError (last spread_array)) ;;
    let z_score := ((x - mean_spread) / std_spread)%float in
    act c (on_bar_signal (config s) (_has_open_positions c) z_score) ;;;
    append_row c spread_array z_score.

(** Lines 60-91: [on_bar] after the betas are re-estimated. *)
Definition on_bar_tail `{Numerics} (c : Cache) : M unit :=
  _update_spread c ;;;
  s <- get ;;
  if (Z.of_nat (length (spread s)) <? formation_window (config s))%Z then ret tt
  else on_full_window c.

(** [on_bar], lines 55-91.  The [bar] argument is not read. *)
Definition on_bar `{Numerics} (c : Cache) : M unit :=
  s <- get ;;
  if negb (_has_enough_bars c (config s)) then ret tt
  else _update_betas c ;;; on_bar_tail c.

(** A run of the engine: one call of [on_bar] per cache snapshot, stopping
    at the first exception that leaves [on_bar]. *)
Fixpoint run `{Numerics} (cs : list Cache) : M unit :=
  match cs with
  | [] => ret tt
  | c :: r => on_bar c ;;; run r
  end.

(** ** The signal state machine as the specification words it *)

Inductive PositionState := FLAT | LONG_SPREAD | SHORT_SPREAD.

Definition is_flat (ps : PositionState) : bool :=
  match ps with FLAT => true | _ => false end.

(** The four transition rules of the specification, in priority order. *)
Definition spec_transition (entry_threshold exit_threshold : float)
    (ps : PositionState) (z : float) : PositionState * Signal :=
  if negb (is_flat ps) && (abs z <? exit_threshold)%float then (FLAT, EXIT)
  else if is_flat ps && (entry_threshold <? z)%float
       then (SHORT_SPREAD, ENTER_SHORT_SPREAD)
  else if is_flat ps && (z <? - entry_threshold)%float
       then (LONG_SPREAD, ENTER_LONG_SPREAD)
  else (ps, HOLD).

Fixpoint spec_run (entry_threshold exit_threshold : float)
    (ps : PositionState) (zs : list float) : list Signal :=
  match zs with
  | [] => []
  | z :: r =>
      let '(ps', sg) := spec_transition entry_threshold exit_threshold ps z in
      sg :: spec_run entry_threshold exit_threshold ps' r
  end.

(** The position ledger belongs to the execution layer, outside the
    repository: the code reads it through [cache.positions_open()] and
    never writes it.  Here it follows the decisions, as the position state
    of the specification does: an entry leaves a position open, an exit
    leaves none, a hold changes nothing. *)
Definition ledger_after (sg : Signal) (has_open : bool) : bool :=
  match sg with
  | ENTER_LONG_SPREAD | ENTER_SHORT_SPREAD => true
  | EXIT => false
  | HOLD => has_open
  end.

(** The decisions of lines 72-80 along a sequence of z-scores, the ledger
    following each decision. *)
Fixpoint signals_from (cfg : PairTradingStrategyConfig) (has_open : bool)
    (zs : list float) : list Signal :=
  match zs with
  | [] => []
  | z :: r =>
      let sg := on_bar_signal cfg has_open z in
      sg :: signals_from cfg (ledger_after sg has_open) r
  end.

(** The order intents of the specification's sizer for an entry: notional
    [capital_to_risk / legs], quantity [(notional / price) * beta]. *)
Definition spec_quantity (capital_to_risk price beta : float) : float :=
  ((capital_to_risk / 2) / price * beta)%float.

(** The side the specification derives from the sign of beta and the
    direction of the entry. *)
Definition spec_side (direction : OrderSide) (beta : float) : OrderSide :=
  match direction with
  | BUY => if (0 <? beta)%float then BUY else SELL
  | SELL => if (0 <? beta)%float then SELL else BUY
  end.

(** ** Reference numerics and concrete inputs *)

(** Binary64 numbers that are neither zero, infinite nor NaN. *)
Definition is_finite_nonzero (x : float) : bool :=
  match Prim2SF x with S754_finite _ _ _ => true | _ => false end.

(** Binary64 numbers that are neither infinite nor NaN. *)
Definition is_finite (x : float) : bool :=
  match Prim2SF x with S754_finite _ _ _ | S754_zero _ => true | _ => false end.

Definition float_of_nat (n : nat) : float :=
  of_uint63 (Uint63.of_Z (Z.of_nat n)).

(** Left-to-right accumulation, which is how numpy adds up fewer than
    eight values. *)
Definition sum_seq (l : list float) : float := fold_left PrimFloat.add l 0%float.

Definition mean_seq (l : list float) : float :=
  (sum_seq l / float_of_nat (length l))%float.

(** The steps of [numpy.std(_, ddof=1)]: deviations from the mean, their
    squares, the sum over [n - 1], the square root. *)
Definition std_seq (l : list float) : float :=
  let m := mean_seq l in
  PrimFloat.sqrt
    (sum_seq (map (fun x => ((x - m) * (x - m))%float) l)
     / float_of_nat (length l - 1))%float.

(** A stand-in for [coint_johansen] on two columns: it fails on a constant
    first column (a singular problem) and otherwise returns a fixed 2x2
    matrix whose first column is (1, -2). *)
Definition toy_johansen (cols : list (list float)) : exn + list (list float) :=
  match cols with
  | [c1; c2] =>
      match c1 with
      | x :: r =>
          if forallb (PrimFloat.eqb x) r then inl LibraryError
          else inr [[1; 0]; [-2; 1]]%float
      | [] => inl LibraryError
      end
  | _ => inl LibraryError
  end.

Definition toy_numerics : Numerics :=
  {| np_mean := mean_seq; np_std := std_seq; coint_johansen := toy_johansen |}.

(** Numerics whose Johansen procedure always fails. *)
Definition failing_numerics : Numerics :=
  {| np_mean := mean_seq; np_std := std_seq;
     coint_johansen := fun _ => inl LibraryError |}.

(** A two-leg configuration over the instruments "A" and "B". *)
Definition pair_config (w : Z) (entry_threshold exit_threshold : float)
  : PairTradingStrategyConfig :=
  {| instrument_id_1 := "A"; instrument_id_2 := "B";
     bar_type := [("A", "A-1-MINUTE"); ("B", "B-1-MINUTE")];
     formation_window := w;
     zscore_threshold := entry_threshold;
     exit_zscore_threshold := exit_threshold;
     capital_to_risk_ratio := 0.01 |}.

(** A strategy over [pair_config] with the given window contents, betas
    and first instrument. *)
Definition pair_strategy (cfg : PairTradingStrategyConfig)
    (i1 : option Instrument) (sp : list float) (b1 b2 : float) : Strategy :=
  {| config := cfg; instrument1 := i1; instrument2 := None;
     spread := sp;
     betas := <["B" := b2]> (<["A" := b1]> ∅);
     calc_pd := []; log := []; events := [] |}.

(** A cache holding [history] for both legs, latest closes [p1] and [p2],
    no open position and one account of balance [equity]. *)
Definition pair_cache (history : list float) (p1 p2 equity : float) : Cache :=
  {| bars := fun _ => map Build_Bar history;
     bar := fun bt => if decide (bt = "A-1-MINUTE") then Some (Build_Bar p1)
                      else Some (Build_Bar p2);
     positions_open := [];
     accounts := [equity] |}.

(** The five snapshots of the specification's degenerate scenario: closes
    1..5 for "A" and 2..10 for "B", over a pre-filled history. *)
Definition degenerate_stream : list Cache :=
  map (fun k => pair_cache [1; 2; 3; 4; 5]%float k (2 * k)%float 100000%float)
      [1; 2; 3; 4; 5]%float.

(** The strategy after lines 59-60 of [on_bar]: betas re-estimated, spread
    updated. *)
Definition after_updates `{Numerics} (c : Cache) (s : Strategy) : Strategy :=
  fst ((_update_betas c ;;; _update_spread c) s).

(** Whether the bar seen through [c] resolves before a z-score exists:
    a leg is short of bars, the window is not full, or the standard
    deviation of the window is zero. *)
Definition resolves_early `{Numerics} (c : Cache) (s : Strategy) : bool :=
  negb (_has_enough_bars c (config s))
  || (Z.of_nat (length (spread (after_updates c s))) <? formation_window (config s))%Z
  || PrimFloat.eqb (np_std (spread (after_updates c s))) 0.

(** [resolves_early] at every bar of a run. *)
Fixpoint all_resolve_early `{Numerics} (cs : list Cache) (s : Strategy) : bool :=
  match cs with
  | [] => true
  | c :: r => resolves_early c s && all_resolve_early r (fst (on_bar c s))
  end.

(** The strategy of the degenerate scenario: window 5, betas (1, -0.5). *)
Definition degenerate_strategy : Strategy :=
  pair_strategy (pair_config 5 2.0 0.5) None [] 1 (-0.5).

(** A stream whose spread is the constant 0.1: closes 0.2 and 0.1, betas
    (1, -1), window 3. *)
Definition tenth_cache : Cache :=
  pair_cache [0.2; 0.2; 0.2]%float 0.2 0.1 100000.

Definition tenth_strategy (i1 : option Instrument) : Strategy :=
  pair_strategy (pair_config 3 0.7 0.5) i1 [] 1 (-1).

(** What statsmodels guarantees of [coint_johansen]: for [k] columns the
    matrix [evec] has [k] rows. *)
Definition johansen_square (N : Numerics) : Prop :=
  forall cols m, coint_johansen cols = inr m -> length m = length cols.

(** The instruments of the configuration's pair. *)
Definition pair_ids (cfg : PairTradingStrategyConfig) : gset InstrumentId :=
  {[ instrument_id_1 cfg; instrument_id_2 cfg ]}.

(** A computation that leaves the betas and the configuration alone. *)
Definition keeps_betas {A} (m : M A) : Prop :=
  forall s, betas (fst (m s)) = betas s /\ config (fst (m s)) = config s.

(** The sizing scenario of the specification: betas (1, -2), closes 100 and
    50, equity 100000 and ratio 0.01, hence a capital to risk of 1000. *)
Definition sizing_cache : Cache := pair_cache [] 100 50 100000.

Definition sizing_strategy (i1 : option Instrument) : Strategy :=
  pair_strategy (pair_config 5 2.0 0.5) i1 [] 1 (-2).

(** A bar that holds: window 2 holding 0 and 1, betas (1, -1), closes 3 and
    1, a Johansen procedure that fails. *)
Definition hold_cache : Cache := pair_cache [1; 2]%float 3 1 100000.

Definition hold_strategy : Strategy :=
  pair_strategy (pair_config 2 2.0 0.5) None [0; 1]%float 1 (-1).

(** A bar on which the toy Johansen procedure succeeds. *)
Definition estimation_cache : Cache := pair_cache [1; 2; 4]%float 4 2 100000.

(** A strategy whose betas lack the second instrument. *)
Definition one_beta_strategy : Strategy :=
  set_betas (<["A" := 1%float]> ∅) (tenth_strategy None).

(** ** Further methods and notions *)

(** [on_stop], lines 158-161: the report is written, then the positions
    are closed.  Writing the file is the business of the file system:
    [to_csv] tells whether [DataFrame.to_csv] returns or raises on the
    given rows. *)
Definition on_stop (to_csv : list (list Cell) -> exn + unit) (c : Cache) : M unit :=
  s <- get ;;
  lift (to_csv (calc_pd s)) ;;;
  _close_all_positions c.

(** A computation that touches nothing but the list of events. *)
Definition only_events {A} (m : M A) : Prop :=
  forall s,
    let s' := fst (m s) in
    config s' = config s /\ instrument1 s' = instrument1 s
    /\ instrument2 s' = instrument2 s /\ spread s' = spread s
    /\ betas s' = betas s /\ calc_pd s' = calc_pd s /\ log s' = log s.

Definition is_order (ev : Event) : Prop :=
  match ev with OrderCreated _ _ _ => True | PositionClosed _ => False end.

(** The assignments of lines 106-107 as a function on the dictionary: the
    loop stops at the first index that [betas_array] lacks. *)
Fixpoint assign_fold (i : nat) (columns : list InstrumentId)
    (betas_array : list float) (b : gmap InstrumentId float)
  : gmap InstrumentId float :=
  match columns with
  | [] => b
  | instrument_id :: r =>
      match betas_array !! i with
      | None => b
      | Some v => assign_fold (S i) r betas_array (<[instrument_id := v]> b)
      end
  end.

(** The value that the loop leaves under the key [k], if it assigns it. *)
Fixpoint assigned (i : nat) (columns : list InstrumentId)
    (betas_array : list float) (k : InstrumentId) : option float :=
  match columns with
  | [] => None
  | instrument_id :: r =>
      match betas_array !! i with
      | None => None
      | Some v =>
          match assigned (S i) r betas_array k with
          | Some w => Some w
          | None => if decide (instrument_id = k) then Some v else None
          end
      end
  end.

(** The configuration of [run_backtest.py], lines 127-135: the two
    instruments of the venue, one-minute bars, an entry threshold of 1.5
    and the defaults elsewhere. *)
Definition backtest_config : exn + PairTradingStrategyConfig :=
  new_config "BTC/USD.BINANCE" "ETH/USD.BINANCE"
    [("BTC/USD.BINANCE", "BTC/USD.BINANCE-1-MINUTE-LAST-EXTERNAL");
     ("ETH/USD.BINANCE", "ETH/USD.BINANCE-1-MINUTE-LAST-EXTERNAL")]
    None (Some 1.5%float) None None.

(** A cache in which the second leg has no latest bar. *)
Definition half_cache : Cache :=
  {| bars := fun _ => map Build_Bar [1; 2; 3]%float;
     bar := fun bt => if decide (bt = "A-1-MINUTE") then Some (Build_Bar 3) else None;
     positions_open := [];
     accounts := [100000%float] |}.

(** A cache with two open positions and an account without balance. *)
Definition open_cache : Cache :=
  {| bars := fun _ => map Build_Bar [1; 2; 3]%float;
     bar := fun _ => Some (Build_Bar 3);
     positions_open := [7%nat; 9%nat];
     accounts := [0%float] |}.

(** A strategy with a usable first instrument whose betas lack "B". *)
Definition half_beta_strategy : Strategy :=
  set_betas (<["A" := 1%float]> ∅)
            (tenth_strategy (Some {| maquantity := Some 1%float |})).

(** * Properties *)

(** ** Facts on binary64 arithmetic *)

Lemma SFdiv_opp_self (s : bool) (m : positive) (e : Z) :
  SFdiv prec emax (S754_finite (negb s) m e) (S754_finite s m e)
  = S754_finite true 4503599627370496 (-52).
Proof.
  unfold SFdiv, SFdiv_core_binary.
  replace (Zdigits2 (Z.pos m) + e - (Zdigits2 (Z.pos m) + e))%Z with 0%Z by lia.
  replace (e - e)%Z with 0%Z by lia.
  change (fexp prec emax 0 `min` 0)%Z with (-53)%Z.
  change (0 - -53)%Z with 53%Z. cbv iota beta zeta.
  assert (Hq : IntDef.Z.div_eucl (Z.pos m ≪ 53) (Z.pos m)
               = (9007199254740992, 0)%Z).
  { change IntDef.Z.div_eucl with Z.div_eucl.
    rewrite Z.shiftl_mul_pow2 by lia.
    pose proof (Z.div_eucl_eq (Z.pos m * 2 ^ 53) (Z.pos m) ltac:(lia)) as E.
    pose proof (Z.mod_pos_bound (Z.pos m * 2 ^ 53) (Z.pos m) ltac:(lia)) as B.
    unfold Z.modulo in B.
    destruct (Z.div_eucl (Z.pos m * 2 ^ 53) (Z.pos m)) as [q r].
    assert (q = 2 ^ 53)%Z by nia. subst q.
    assert (r = 0)%Z by lia. subst r. reflexivity. }
  rewrite Hq. unfold new_location.
  assert (Hl : (if IntDef.Z.even (Z.pos m) then new_location_even (Z.pos m)
                else new_location_odd (Z.pos m)) 0%Z = loc_Exact).
  { destruct (IntDef.Z.even (Z.pos m)); reflexivity. }
  rewrite Hl. destruct s; reflexivity.
Qed.

(** [-x / x] is exactly [-1] for every finite nonzero [x]. *)
Lemma opp_div_self (x : float) :
  is_finite_nonzero x = true -> (- x / x)%float = (-1)%float.
Proof.
  unfold is_finite_nonzero. intros Hx.
  rewrite <- (SF2Prim_Prim2SF (- x / x)), div_spec, opp_spec.
  destruct (Prim2SF x) as [ | | | s m e]; try discriminate.
  unfold SF64div. simpl SFopp. rewrite SFdiv_opp_self. reflexivity.
Qed.

Lemma SFdiv_opp_swap (x y : spec_float) :
  SFdiv prec emax (SFopp x) y = SFdiv prec emax x (SFopp y).
Proof.
  destruct x as [sx|sx| |sx mx ex], y as [sy|sy| |sy my ey]; simpl;
    try reflexivity; destruct sx, sy; reflexivity.
Qed.

(** Negating the dividend or the divisor gives the same quotient. *)
Lemma opp_div_swap (a b : float) : (- a / b)%float = (a / - b)%float.
Proof.
  rewrite <- (SF2Prim_Prim2SF (- a / b)), <- (SF2Prim_Prim2SF (a / - b)).
  rewrite !div_spec, !opp_spec. unfold SF64div.
  now rewrite SFdiv_opp_swap.
Qed.

(** Zero times a finite number is a zero. *)
Lemma zero_mul_finite (p : float) :
  is_finite p = true -> PrimFloat.eqb (0 * p) 0 = true.
Proof.
  unfold is_finite. intros Hp.
  rewrite FloatAxioms.eqb_spec, mul_spec.
  change (Prim2SF 0) with (S754_zero false).
  destruct (Prim2SF p) as [s| | |s m e]; try discriminate; reflexivity.
Qed.

(** ** The monad *)

Ltac run_monad :=
  unfold bind, get, modify, lift, ret, raise, or_raise in *; simpl in *.

(** ** C1: the decision of lines 72-80 *)

Lemma on_bar_signal_spec cfg ps z :
  on_bar_signal cfg (negb (is_flat ps)) z
  = snd (spec_transition (zscore_threshold cfg) (exit_zscore_threshold cfg) ps z).
Proof.
  unfold on_bar_signal, spec_transition.
  destruct ps; simpl;
    repeat match goal with |- context [if ?b then _ else _] => destruct b end;
    reflexivity.
Qed.

Lemma ledger_after_spec cfg ps z :
  ledger_after (on_bar_signal cfg (negb (is_flat ps)) z) (negb (is_flat ps))
  = negb (is_flat (fst (spec_transition (zscore_threshold cfg)
                          (exit_zscore_threshold cfg) ps z))).
Proof.
  unfold on_bar_signal, spec_transition.
  destruct ps; simpl;
    repeat match goal with |- context [if ?b then _ else _] => destruct b end;
    reflexivity.
Qed.

Lemma signals_from_spec cfg zs : forall ps,
  signals_from cfg (negb (is_flat ps)) zs
  = spec_run (zscore_threshold cfg) (exit_zscore_threshold cfg) ps zs.
Proof.
  induction zs as [|z r IH]; intros ps; [reflexivity|].
  cbn [signals_from spec_run].
  rewrite ledger_after_spec, on_bar_signal_spec.
  destruct (spec_transition _ _ ps z) as [ps' sg]. simpl.
  now rewrite IH.
Qed.

Lemma close_loop_events ps : forall s,
  close_loop ps s
  = ({| config := config s; instrument1 := instrument1 s;
        instrument2 := instrument2 s; spread := spread s; betas := betas s;
        calc_pd := calc_pd s; log := log s;
        events := events s ++ map PositionClosed ps |}, inr tt).
Proof.
  induction ps as [|p r IH]; intros s.
  - simpl. unfold ret. rewrite app_nil_r. now destruct s.
  - cbn [close_loop]. unfold bind, modify. rewrite IH. simpl.
    now rewrite <- app_assoc.
Qed.

(** Once a z-score is defined, [on_bar] acts on the decision of lines
    72-80 for that z-score and then writes the diagnostic row. *)
Lemma on_full_window_decides `{Numerics} c s x :
  PrimFloat.eqb (np_std (spread s)) 0 = false ->
  last (spread s) = Some x ->
  let z_score := ((x - np_mean (spread s)) / np_std (spread s))%float in
  on_full_window c s
  = (act c (on_bar_signal (config s) (_has_open_positions c) z_score) ;;;
     append_row c (spread s) z_score) s.
Proof.
  intros Hstd Hlast. unfold on_full_window. run_monad. by rewrite Hstd, Hlast.
Qed.

(** C1.  The branch taken by lines 72-80 is the one the four rules of the
    specification select in their priority order, for every position state
    and every z-score, and so are the decisions along any sequence of
    z-scores when the ledger follows them.  With a position open the
    decision is EXIT or HOLD, never an entry; without one it is never EXIT.
    EXIT closes every open position and nothing else, HOLD does nothing.
    On a bar whose window has a nonzero standard deviation, [on_bar] acts
    on that decision for the z-score of line 70.  From FLAT with thresholds
    2.0 and 0.5 the z-scores 0.1, 2.3, 1.9, 0.3 give HOLD,
    ENTER_SHORT_SPREAD, HOLD, EXIT. *)
Theorem C1_signal_priority :
  forall (N : Numerics) (cfg : PairTradingStrategyConfig) (ps : PositionState)
         (z : float) (zs : list float) (c : Cache) (s : Strategy),
    on_bar_signal cfg (negb (is_flat ps)) z
    = snd (spec_transition (zscore_threshold cfg) (exit_zscore_threshold cfg) ps z)
    /\ signals_from cfg (negb (is_flat ps)) zs
       = spec_run (zscore_threshold cfg) (exit_zscore_threshold cfg) ps zs
    /\ (on_bar_signal cfg true z = EXIT \/ on_bar_signal cfg true z = HOLD)
    /\ on_bar_signal cfg false z <> EXIT
    /\ events (fst (act c EXIT s)) = events s ++ map PositionClosed (positions_open c)
    /\ act c HOLD s = (s, inr tt)
    /\ act c ENTER_SHORT_SPREAD s = open_positions c SELL s
    /\ act c ENTER_LONG_SPREAD s = open_positions c BUY s
    /\ (forall x,
           PrimFloat.eqb (np_std (spread s)) 0 = false ->
           last (spread s) = Some x ->
           on_full_window c s
           = (act c (on_bar_signal (config s) (_has_open_positions c)
                       ((x - np_mean (spread s)) / np_std (spread s))%float) ;;;
              append_row c (spread s)
                ((x - np_mean (spread s)) / np_std (spread s))%float) s)
    /\ signals_from (pair_config 5 2.0 0.5) false [0.1; 2.3; 1.9; 0.3]%float
       = [HOLD; ENTER_SHORT_SPREAD; HOLD; EXIT].
Proof.
  intros N cfg ps z zs c s.
  split; [apply on_bar_signal_spec|].
  split; [apply signals_from_spec|].
  split.
  { unfold on_bar_signal. destruct (abs z <? _)%float; auto. }
  split.
  { unfold on_bar_signal.
    repeat match goal with |- context [if ?b then _ else _] => destruct b end;
      discriminate. }
  split.
  { simpl. unfold _close_all_positions. now rewrite close_loop_events. }
  repeat split. intros x. apply on_full_window_decides.
Qed.

Lemma C1_witness :
  let s := set_spread [1; 2]%float hold_strategy in
  on_full_window (H := failing_numerics) hold_cache s
  = (act hold_cache HOLD ;;;
     append_row hold_cache [1; 2]%float 0.70710678118654746) s.
Proof.
  intros s.
  destruct (C1_signal_priority failing_numerics (config s) FLAT 0 [] hold_cache s)
    as (_ & _ & _ & _ & _ & _ & _ & _ & Hbar & _).
  apply (Hbar 2%float); vm_compute; reflexivity.
Defined.

(** ** What the two updates of [on_bar] touch *)

Section Frames.
Context `{Numerics}.

Lemma assign_loop_frame columns betas_array : forall i s,
  let s' := fst (assign_loop i columns betas_array s) in
  config s' = config s /\ spread s' = spread s /\ events s' = events s
  /\ calc_pd s' = calc_pd s /\ log s' = log s
  /\ instrument1 s' = instrument1 s /\ instrument2 s' = instrument2 s.
Proof.
  induction columns as [|k r IH]; intros i s; simpl; [tauto|].
  run_monad. destruct (betas_array !! i); simpl; [|tauto].
  apply (IH (S i) (set_betas _ s)).
Qed.

Lemma try_update_betas_frame c s :
  let s' := fst (try_update_betas c s) in
  config s' = config s /\ spread s' = spread s /\ events s' = events s
  /\ calc_pd s' = calc_pd s /\ log s' = log s
  /\ instrument1 s' = instrument1 s /\ instrument2 s' = instrument2 s.
Proof.
  unfold try_update_betas. run_monad.
  destruct (estimate _) as [e|[cols arr]]; simpl; [tauto|].
  apply assign_loop_frame.
Qed.

Lemma _update_betas_returns c s : snd (_update_betas c s) = inr tt.
Proof.
  unfold _update_betas. now destruct (try_update_betas c s) as [s' [e|[]]].
Qed.

Lemma _update_betas_frame c s :
  let s' := fst (_update_betas c s) in
  config s' = config s /\ spread s' = spread s /\ events s' = events s
  /\ calc_pd s' = calc_pd s
  /\ instrument1 s' = instrument1 s /\ instrument2 s' = instrument2 s.
Proof.
  unfold _update_betas. pose proof (try_update_betas_frame c s) as F.
  destruct (try_update_betas c s) as [s' [e|[]]]; simpl in *; tauto.
Qed.

Lemma _update_spread_returns c s : snd (_update_spread c s) = inr tt.
Proof.
  unfold _update_spread. run_monad. now destruct (spread_loop _ _ _ _).
Qed.

Lemma _update_spread_frame c s :
  let s' := fst (_update_spread c s) in
  config s' = config s /\ betas s' = betas s /\ events s' = events s
  /\ calc_pd s' = calc_pd s /\ log s' = log s
  /\ instrument1 s' = instrument1 s /\ instrument2 s' = instrument2 s.
Proof.
  unfold _update_spread. run_monad.
  destruct (spread_loop _ _ _ _); simpl; tauto.
Qed.

(** Lines 59-60 never raise. *)
Lemma updates_return c s :
  (_update_betas c ;;; _update_spread c) s = (after_updates c s, inr tt).
Proof.
  unfold after_updates, bind.
  pose proof (_update_betas_returns c s) as Hb.
  destruct (_update_betas c s) as [s1 r1]. simpl in Hb. subst r1.
  pose proof (_update_spread_returns c s1) as Hs.
  destruct (_update_spread c s1) as [s2 r2]. simpl in Hs. now subst r2.
Qed.

Lemma after_updates_frame c s :
  let s' := after_updates c s in
  config s' = config s /\ events s' = events s /\ calc_pd s' = calc_pd s
  /\ instrument1 s' = instrument1 s /\ instrument2 s' = instrument2 s.
Proof.
  unfold after_updates, bind.
  pose proof (_update_betas_returns c s) as Hb.
  pose proof (_update_betas_frame c s) as Fb.
  destruct (_update_betas c s) as [s1 r1]. simpl in *. subst r1.
  pose proof (_update_spread_frame c s1) as Fs.
  destruct (_update_spread c s1) as [s2 r2]. simpl in *.
  intuition congruence.
Qed.

(** [on_bar] past the guard of line 57. *)
Lemma on_bar_enough c s :
  _has_enough_bars c (config s) = true ->
  on_bar c s
  = let s1 := after_updates c s in
    if (Z.of_nat (length (spread s1)) <? formation_window (config s))%Z
    then (s1, inr tt)
    else on_full_window c s1.
Proof.
  intros He. unfold on_bar at 1. unfold bind at 1. unfold get at 1.
  rewrite He. cbn [negb]. unfold on_bar_tail.
  pose proof (updates_return c s) as Hu.
  pose proof (after_updates_frame c s) as (Hc & _).
  unfold bind in Hu |- *.
  destruct (_update_betas c s) as [s1 [e1|[]]]; [discriminate|].
  destruct (_update_spread c s1) as [s2 [e2|[]]]; [discriminate|].
  injection Hu as Hu. rewrite <- Hu in *. cbn zeta.
  unfold get. rewrite Hc. now destruct (_ <? _)%Z.
Qed.

Lemma has_enough_loop_false c w bts bt :
  bt ∈ bts -> (Z.of_nat (length (bars c bt)) < w)%Z ->
  has_enough_loop c w bts = false.
Proof.
  induction bts as [|b r IH]; intros Hin Hlt; [by apply elem_of_nil in Hin|].
  simpl. destruct (Z.ltb_spec (Z.of_nat (length (bars c b))) w) as [|Hge]; [done|].
  apply elem_of_cons in Hin as [->|Hin]; [lia|]. by apply IH.
Qed.

End Frames.

(** ** C8 and C5: bars that resolve before a z-score exists *)

Section EarlyReturns.
Context `{Numerics}.

Lemma resolves_early_on_bar c s :
  resolves_early c s = true ->
  snd (on_bar c s) = inr tt
  /\ events (fst (on_bar c s)) = events s
  /\ calc_pd (fst (on_bar c s)) = calc_pd s
  /\ config (fst (on_bar c s)) = config s.
Proof.
  unfold resolves_early. intros Hr.
  destruct (_has_enough_bars c (config s)) eqn:He.
  - rewrite on_bar_enough by done. cbn zeta.
    pose proof (after_updates_frame c s) as (Hc & Hev & Hpd & _).
    destruct (_ <? _)%Z eqn:Hlen; [simpl; tauto|].
    simpl in Hr. unfold on_full_window. run_monad. rewrite Hr. simpl. tauto.
  - unfold on_bar. run_monad. rewrite He. simpl. tauto.
Qed.

Lemma all_resolve_early_run cs : forall s,
  all_resolve_early cs s = true ->
  snd (run cs s) = inr tt
  /\ events (fst (run cs s)) = events s
  /\ calc_pd (fst (run cs s)) = calc_pd s.
Proof.
  induction cs as [|c r IH]; intros s Hall; [simpl; tauto|].
  simpl in Hall. apply andb_prop in Hall as [Hc Hr].
  destruct (resolves_early_on_bar c s Hc) as (Hret & Hev & Hpd & _).
  destruct (IH _ Hr) as (Hret' & Hev' & Hpd').
  cbn [run]. unfold bind.
  destruct (on_bar c s) as [s1 [e|[]]]; simpl in *; [discriminate|].
  rewrite Hret', Hev', Hpd'. tauto.
Qed.

End EarlyReturns.

(** C8.  When some leg of the configuration has fewer than
    [formation_window] bars in the cache, [on_bar] returns without raising
    and leaves the whole strategy as it was: betas, spread buffer, orders
    and diagnostic rows.  When every leg has enough bars and the spread
    buffer, after this bar's update, still holds fewer than
    [formation_window] values, [on_bar] returns after the two updates: no
    diagnostic row (no z-score) and no order or closing is produced. *)
Theorem C8_insufficient_data :
  forall (N : Numerics) (c : Cache) (s : Strategy),
    (forall id bt,
        (id, bt) ∈ bar_type (config s) ->
        (Z.of_nat (length (bars c bt)) < formation_window (config s))%Z ->
        on_bar c s = (s, inr tt))
    /\ (_has_enough_bars c (config s) = true ->
        (Z.of_nat (length (spread (after_updates c s)))
         < formation_window (config s))%Z ->
        on_bar c s = (after_updates c s, inr tt)
        /\ events (after_updates c s) = events s
        /\ calc_pd (after_updates c s) = calc_pd s).
Proof.
  intros N c s. split.
  - intros id bt Hin Hlt.
    assert (He : _has_enough_bars c (config s) = false).
    { unfold _has_enough_bars. apply has_enough_loop_false with bt; [|done].
      apply list_elem_of_fmap. by exists (id, bt). }
    unfold on_bar. run_monad. by rewrite He.
  - intros He Hlt. rewrite on_bar_enough by done. cbn zeta.
    pose proof (after_updates_frame c s) as (_ & Hev & Hpd & _).
    apply Z.ltb_lt in Hlt. rewrite Hlt. tauto.
Qed.

Lemma C8_witness :
  on_bar (H := failing_numerics) (pair_cache [1; 2]%float 3 6 100000)
         degenerate_strategy
  = (degenerate_strategy, inr tt)
  /\ events (after_updates (H := failing_numerics)
               (pair_cache [1; 2; 3; 4; 5]%float 1 2 100000) degenerate_strategy)
     = [].
Proof.
  destruct (C8_insufficient_data failing_numerics
              (pair_cache [1; 2]%float 3 6 100000) degenerate_strategy)
    as [Hshort _].
  destruct (C8_insufficient_data failing_numerics
              (pair_cache [1; 2; 3; 4; 5]%float 1 2 100000) degenerate_strategy)
    as [_ Hwin].
  split.
  - apply (Hshort "A" "A-1-MINUTE").
    + vm_compute. apply list_elem_of_here.
    + vm_compute. reflexivity.
  - apply Hwin.
    + vm_compute. reflexivity.
    + vm_compute. reflexivity.
Defined.

(** C5 as amended.  When the window is full and its standard deviation, as
    numpy computes it, is exactly zero, [on_bar] returns after the two
    updates without raising: the quotient of line 70 is not evaluated, no
    diagnostic row is written and no order or closing is produced.  A run
    all of whose bars resolve that way (or earlier) produces nothing at
    all.  The all-zero stream of the specification (window 5, closes 1..5
    and 2..10, betas 1 and -0.5) is such a run: its spread buffer ends as
    five zeros, with no order, no row and no exception. *)
Theorem C5_zero_deviation_holds :
  forall (N : Numerics) (c : Cache) (cs : list Cache) (s : Strategy),
    (_has_enough_bars c (config s) = true ->
     (formation_window (config s)
      <= Z.of_nat (length (spread (after_updates c s))))%Z ->
     PrimFloat.eqb (np_std (spread (after_updates c s))) 0 = true ->
     on_bar c s = (after_updates c s, inr tt)
     /\ events (after_updates c s) = events s
     /\ calc_pd (after_updates c s) = calc_pd s)
    /\ (all_resolve_early cs s = true ->
        snd (run cs s) = inr tt
        /\ events (fst (run cs s)) = events s
        /\ calc_pd (fst (run cs s)) = calc_pd s)
    /\ (let r := run (H := failing_numerics) degenerate_stream degenerate_strategy in
        all_resolve_early (H := failing_numerics) degenerate_stream degenerate_strategy
        = true
        /\ spread (fst r) = [0; 0; 0; 0; 0]%float
        /\ PrimFloat.eqb (std_seq (spread (fst r))) 0 = true
        /\ events (fst r) = [] /\ calc_pd (fst r) = [] /\ snd r = inr tt).
Proof.
  intros N c cs s. split; [|split].
  - intros He Hfull Hstd. rewrite on_bar_enough by done. cbn zeta.
    pose proof (after_updates_frame c s) as (_ & Hev & Hpd & _).
    apply Z.ltb_ge in Hfull. rewrite Hfull.
    unfold on_full_window. run_monad. rewrite Hstd. tauto.
  - apply all_resolve_early_run.
  - vm_compute. repeat split.
Qed.

Lemma C5_witness :
  let c := pair_cache [1; 2; 3; 4; 5]%float 5 10 100000 in
  let s := pair_strategy (pair_config 5 2.0 0.5) None [0; 0; 0; 0]%float 1 (-0.5) in
  on_bar (H := failing_numerics) c s = (after_updates (H := failing_numerics) c s, inr tt)
  /\ snd (run (H := failing_numerics) degenerate_stream degenerate_strategy) = inr tt.
Proof.
  intros c s.
  destruct (C5_zero_deviation_holds failing_numerics c degenerate_stream s)
    as (Hbar & _).
  destruct (C5_zero_deviation_holds failing_numerics c degenerate_stream
              degenerate_strategy) as (_ & Hrun & _).
  split.
  - apply Hbar; vm_compute; first [reflexivity | discriminate].
  - apply Hrun. vm_compute. reflexivity.
Defined.

(** C5, as stated, fails on a constant stream whose mean rounds.  With
    window 3, thresholds 0.7 and 0.5, betas (1, -1) and closes 0.2 and 0.1
    on every bar, the spread buffer is three times 0.1; its mean is
    0.10000000000000002, its standard deviation 1.6996749443881478e-17 and
    not zero, the z-score -0.81649658092772615, and the third bar takes the
    branch of a long entry: orders are created when the instrument has the
    attribute read on line 140, and [AttributeError] leaves [on_bar] when
    it has not. *)
Lemma C5_constant_stream_enters :
  let cs := [tenth_cache; tenth_cache; tenth_cache] in
  let r := run (H := failing_numerics) cs
             (tenth_strategy (Some {| maquantity := Some 1%float |})) in
  let r' := run (H := failing_numerics) cs
              (tenth_strategy (Some {| maquantity := None |})) in
  spread (fst r) = [0.1; 0.1; 0.1]%float
  /\ mean_seq (spread (fst r)) = 0.10000000000000002%float
  /\ std_seq (spread (fst r)) = 1.6996749443881478e-17%float
  /\ PrimFloat.eqb (std_seq (spread (fst r))) 0 = false
  /\ on_bar_signal (pair_config 3 0.7 0.5) false
       ((0.1 - mean_seq (spread (fst r))) / std_seq (spread (fst r)))%float
     = ENTER_LONG_SPREAD
  /\ events (fst r) = [OrderCreated "A" BUY 1; OrderCreated "B" SELL 1]
  /\ length (calc_pd (fst r)) = 1%nat
  /\ snd r' = inl AttributeError.
Proof. vm_compute. repeat split. Qed.

(** ** C6 and C7: the re-estimation of the betas *)

Section Betas.
Context `{N : Numerics}.

Lemma column0_length m : forall evec,
  column0 m = inr evec -> length evec = length m.
Proof.
  induction m as [|row r IH]; intros evec Hc; simpl in Hc.
  - by injection Hc as <-.
  - destruct (head row); [|discriminate].
    destruct (column0 r) as [e|xs]; [discriminate|].
    injection Hc as <-. simpl. by rewrite (IH xs).
Qed.

Lemma DataFrame_ok data df : DataFrame data = inr df -> df = data.
Proof.
  unfold DataFrame. destruct data as [|[k col] r]; [congruence|].
  destruct (forallb _ r); congruence.
Qed.

Lemma collect_data_keys c cfg :
  map fst (collect_data c cfg) = map fst (bar_type cfg).
Proof.
  unfold collect_data. rewrite map_map. apply map_ext. by intros [k bt].
Qed.

Lemma estimate_ok data cols arr :
  estimate data = inr (cols, arr) ->
  cols = map fst data
  /\ exists m evec last_coeff,
       coint_johansen (map snd data) = inr m
       /\ column0 m = inr evec
       /\ last evec = Some last_coeff
       /\ arr = map (fun e => (- e / last_coeff)%float) evec.
Proof.
  unfold estimate. destruct (DataFrame data) as [e|df] eqn:Hdf; [discriminate|].
  apply DataFrame_ok in Hdf as ->.
  destruct (coint_johansen _) as [e|m] eqn:Hj; [discriminate|].
  destruct (column0 m) as [e|evec] eqn:Hc; [discriminate|].
  destruct (last evec) as [last_coeff|] eqn:Hl; [|discriminate].
  intros [= <- <-]. split; [done|]. by exists m, evec, last_coeff.
Qed.

Lemma estimate_shape data cols arr :
  johansen_square N -> estimate data = inr (cols, arr) ->
  length arr = length cols.
Proof.
  intros Hsq He. apply estimate_ok in He as (-> & m & evec & lc & Hj & Hc & _ & ->).
  rewrite !length_map. rewrite (column0_length _ _ Hc), (Hsq _ _ Hj).
  by rewrite length_map.
Qed.

Lemma assign_loop_total columns betas_array : forall i s,
  (i + length columns <= length betas_array)%nat ->
  snd (assign_loop i columns betas_array s) = inr tt.
Proof.
  induction columns as [|k r IH]; intros i s Hlen; [done|].
  simpl in Hlen. cbn [assign_loop]. run_monad.
  destruct (lookup_lt_is_Some_2 betas_array i ltac:(lia)) as [v ->]. simpl.
  apply IH. lia.
Qed.

Lemma assign_loop_lookup columns betas_array : forall i s,
  NoDup columns ->
  (i + length columns <= length betas_array)%nat ->
  let s' := fst (assign_loop i columns betas_array s) in
  (forall j id, columns !! j = Some id ->
                betas s' !! id = betas_array !! (i + j)%nat)
  /\ (forall id, id ∉ columns -> betas s' !! id = betas s !! id).
Proof.
  induction columns as [|k r IH]; intros i s Hnd Hlen; cbn zeta.
  - split; [intros j id Hj; by rewrite lookup_nil in Hj|done].
  - apply NoDup_cons in Hnd as [Hk Hnd]. simpl in Hlen.
    cbn [assign_loop]. run_monad.
    destruct (lookup_lt_is_Some_2 betas_array i ltac:(lia)) as [v Hv].
    rewrite Hv. simpl.
    destruct (IH (S i) (set_betas (<[k:=v]> (betas s)) s) Hnd ltac:(lia))
      as [Hin Hout].
    split.
    + intros [|j] id Hj; simpl in Hj.
      * injection Hj as <-. rewrite Hout by done. simpl.
        rewrite lookup_insert_eq. by rewrite Nat.add_0_r.
      * rewrite (Hin j id Hj). f_equal. lia.
    + intros id Hid. apply not_elem_of_cons in Hid as [Hne Hid].
      rewrite Hout by done. simpl. by rewrite lookup_insert_ne.
Qed.

Lemma assign_loop_dom columns betas_array : forall i s id,
  let s' := fst (assign_loop i columns betas_array s) in
  (is_Some (betas s !! id) -> is_Some (betas s' !! id))
  /\ (is_Some (betas s' !! id) -> is_Some (betas s !! id) \/ id ∈ columns).
Proof.
  induction columns as [|k r IH]; intros i s id; cbn zeta.
  - simpl. tauto.
  - cbn [assign_loop]. run_monad.
    destruct (betas_array !! i) as [v|]; simpl; [|tauto].
    destruct (IH (S i) (set_betas (<[k:=v]> (betas s)) s) id) as [Hlo Hhi].
    simpl in Hlo, Hhi. rewrite lookup_insert in Hlo, Hhi.
    destruct (decide (k = id)) as [->|Hne].
    + split; [intros _; apply Hlo; by eexists|].
      intros _. right. apply list_elem_of_here.
    + split; [done|]. intros Hs. destruct (Hhi Hs) as [?|?]; [by left|].
      right. by apply list_elem_of_further.
Qed.

Lemma try_update_betas_dom c s id :
  let s' := fst (try_update_betas c s) in
  (is_Some (betas s !! id) -> is_Some (betas s' !! id))
  /\ (is_Some (betas s' !! id) ->
      is_Some (betas s !! id) \/ id ∈ map fst (bar_type (config s))).
Proof.
  unfold try_update_betas. run_monad.
  destruct (estimate _) as [e|[cols arr]] eqn:He; simpl; [tauto|].
  apply estimate_ok in He as (-> & _). rewrite collect_data_keys.
  apply assign_loop_dom.
Qed.

(** Under the shape contract, an exception of the [try] block is an
    exception of the estimation, raised before any assignment. *)
Lemma try_update_betas_raises c s s' e :
  johansen_square N ->
  try_update_betas c s = (s', inl e) ->
  s' = s /\ estimate (collect_data c (config s)) = inl e.
Proof.
  intros Hsq. unfold try_update_betas. run_monad.
  destruct (estimate _) as [e'|[cols arr]] eqn:He; simpl.
  - by intros [= <- <-].
  - intros Hloop.
    pose proof (assign_loop_total cols arr 0 s) as Ht.
    rewrite (estimate_shape _ _ _ Hsq He) in Ht.
    rewrite Hloop in Ht. simpl in Ht. by specialize (Ht ltac:(lia)).
Qed.

End Betas.

(** C6.  When the [try] block of [_update_betas] raises (and
    [coint_johansen] returns, when it returns, one row per column), the
    exception comes from the estimation and no assignment has been made:
    the strategy is the one before the call but for one more log entry, the
    exception; the betas are untouched.  [_update_betas] itself returns
    normally, and [on_bar] goes on with the spread update on that
    strategy. *)
Theorem C6_failed_estimation_keeps_betas :
  forall (N : Numerics) (c : Cache) (s s' : Strategy) (e : exn),
    johansen_square N ->
    try_update_betas c s = (s', inl e) ->
    _update_betas c s = (log_error e s, inr tt)
    /\ betas (fst (_update_betas c s)) = betas s
    /\ log (fst (_update_betas c s)) = log s ++ [e]
    /\ (_has_enough_bars c (config s) = true ->
        on_bar c s = on_bar_tail c (log_error e s)).
Proof.
  intros N c s s' e Hsq Htry.
  destruct (try_update_betas_raises c s s' e Hsq Htry) as [-> _].
  assert (Hu : _update_betas c s = (log_error e s, inr tt)).
  { unfold _update_betas. by rewrite Htry. }
  rewrite Hu. repeat split.
  intros He. unfold on_bar. unfold bind at 1. unfold get at 1.
  rewrite He. cbn [negb]. unfold bind at 1. by rewrite Hu.
Qed.

(** The stand-in satisfies the shape contract. *)
Lemma toy_johansen_square : johansen_square toy_numerics.
Proof.
  intros cols m. simpl. unfold toy_johansen.
  destruct cols as [|c1 [|c2 [|c3 r]]]; try discriminate.
  destruct c1 as [|x r]; [discriminate|].
  destruct (forallb _ r); [discriminate|]. by intros [= <-].
Qed.

Lemma C6_witness :
  let c := pair_cache [2; 2; 2]%float 2 3 100000 in
  let s := tenth_strategy None in
  _update_betas (H := toy_numerics) c s = (log_error LibraryError s, inr tt)
  /\ betas (fst (_update_betas (H := toy_numerics) c s)) = betas s.
Proof.
  intros c s.
  destruct (C6_failed_estimation_keeps_betas toy_numerics c s s LibraryError
              toy_johansen_square)
    as (H1 & H2 & _).
  - vm_compute. reflexivity.
  - split; assumption.
Defined.

(** *** What leaves the betas alone *)

Section KeepsBetas.
Context `{N : Numerics}.

Lemma keeps_betas_bind {A B} (m : M A) (k : A -> M B) :
  keeps_betas m -> (forall a, keeps_betas (k a)) -> keeps_betas (bind m k).
Proof.
  intros Hm Hk s. unfold bind. specialize (Hm s).
  destruct (m s) as [s1 [e|a]]; simpl in *; [done|].
  destruct Hm as [Hb0 Hc0]. destruct (Hk a s1) as [Hb Hc]. split; congruence.
Qed.

Lemma keeps_betas_lift {A} (r : exn + A) : keeps_betas (lift r).
Proof. by intros s. Qed.

Lemma keeps_betas_ret {A} (a : A) : keeps_betas (ret a).
Proof. by intros s. Qed.

Lemma keeps_betas_get : keeps_betas get.
Proof. by intros s. Qed.

Lemma keeps_betas_modify f :
  (forall s, betas (f s) = betas s /\ config (f s) = config s) ->
  keeps_betas (modify f).
Proof. intros Hf s. apply Hf. Qed.

Ltac keeps :=
  repeat first
    [ apply keeps_betas_bind; [|intros ?]
    | apply keeps_betas_lift | apply keeps_betas_ret | apply keeps_betas_get
    | apply keeps_betas_modify; intros ?; simpl; tauto ].

Lemma keeps_betas_close_loop ps : keeps_betas (close_loop ps).
Proof. intros s. by rewrite close_loop_events. Qed.

Lemma keeps_betas_open_loop c ctr lsr items :
  keeps_betas (open_loop c ctr lsr items).
Proof.
  induction items as [|[k bt] r IH]; cbn [open_loop]; keeps. apply IH.
Qed.

Lemma keeps_betas_act c sg : keeps_betas (act c sg).
Proof.
  destruct sg; simpl; unfold _close_all_positions, open_positions; keeps;
    auto using keeps_betas_close_loop, keeps_betas_open_loop.
Qed.

Lemma keeps_betas_append_row c sa z : keeps_betas (append_row c sa z).
Proof. unfold append_row. keeps. Qed.

Lemma keeps_betas_on_full_window c : keeps_betas (on_full_window c).
Proof.
  unfold on_full_window. apply keeps_betas_bind; [keeps|intros s].
  destruct (PrimFloat.eqb _ _); keeps;
    auto using keeps_betas_act, keeps_betas_append_row.
Qed.

Lemma keeps_betas_update_spread c : keeps_betas (_update_spread c).
Proof.
  intros s. pose proof (_update_spread_frame c s). simpl in *. tauto.
Qed.

Lemma keeps_betas_on_bar_tail c : keeps_betas (on_bar_tail c).
Proof.
  unfold on_bar_tail.
  apply keeps_betas_bind; [apply keeps_betas_update_spread|intros _].
  apply keeps_betas_bind; [keeps|intros s].
  destruct (_ <? _)%Z; [keeps|apply keeps_betas_on_full_window].
Qed.

(** After [on_bar] the betas are those before it, or those left by
    [_update_betas]. *)
Lemma on_bar_betas c s :
  config (fst (on_bar c s)) = config s
  /\ (betas (fst (on_bar c s)) = betas s
      \/ betas (fst (on_bar c s)) = betas (fst (try_update_betas c s))).
Proof.
  assert (Hu : on_bar c s
               = if negb (_has_enough_bars c (config s)) then (s, inr tt)
                 else (_update_betas c ;;; on_bar_tail c) s).
  { unfold on_bar. unfold bind at 1. unfold get at 1. by destruct (negb _). }
  rewrite Hu. clear Hu.
  destruct (negb _); [simpl; tauto|].
  unfold bind, _update_betas.
  pose proof (try_update_betas_frame c s) as (Hc & _).
  destruct (try_update_betas c s) as [s1 [e|[]]]; simpl in Hc |- *.
  - destruct (keeps_betas_on_bar_tail c (log_error e s1)) as [Hb Hc'].
    simpl in Hb, Hc'. split; [congruence|]. right. done.
  - destruct (keeps_betas_on_bar_tail c s1) as [Hb Hc'].
    split; [congruence|]. right. done.
Qed.

Lemma on_bar_dom c s id :
  (is_Some (betas s !! id) -> is_Some (betas (fst (on_bar c s)) !! id))
  /\ (is_Some (betas (fst (on_bar c s)) !! id) ->
      is_Some (betas s !! id) \/ id ∈ map fst (bar_type (config s))).
Proof.
  destruct (on_bar_betas c s) as [_ [-> | ->]]; [tauto|].
  apply try_update_betas_dom.
Qed.

Lemma run_dom cs : forall s id,
  (is_Some (betas s !! id) -> is_Some (betas (fst (run cs s)) !! id))
  /\ (is_Some (betas (fst (run cs s)) !! id) ->
      is_Some (betas s !! id) \/ id ∈ map fst (bar_type (config s))).
Proof.
  induction cs as [|c r IH]; intros s id; [simpl; tauto|].
  cbn [run]. unfold bind.
  pose proof (on_bar_dom c s id) as [Hlo Hhi].
  pose proof (on_bar_betas c s) as [Hc _].
  destruct (on_bar c s) as [s1 [e|[]]]; simpl in *; [tauto|].
  destruct (IH s1 id) as [Hlo' Hhi']. rewrite Hc in Hhi'. tauto.
Qed.

Lemma init_betas cfg s0 :
  PairTradingStrategy_init cfg = inr s0 ->
  config s0 = cfg
  /\ betas s0 !! instrument_id_2 cfg = Some (-1)%float
  /\ (instrument_id_1 cfg <> instrument_id_2 cfg ->
      betas s0 !! instrument_id_1 cfg = Some 1%float)
  /\ dom (betas s0) = pair_ids cfg.
Proof.
  unfold PairTradingStrategy_init. destruct (_ || _); [discriminate|].
  destruct (_ <? _)%Z; [discriminate|].
  intros [= <-]. simpl. split; [done|]. split; [by rewrite lookup_insert_eq|].
  split.
  - intros Hne. rewrite lookup_insert_ne by done. by rewrite lookup_insert_eq.
  - unfold pair_ids. rewrite !dom_insert_L, dom_empty_L.
    apply set_eq. intros x. rewrite !elem_of_union, !elem_of_singleton.
    rewrite elem_of_empty. tauto.
Qed.

(** A re-estimation that succeeds assigns to every column the component
    of the eigenvector over the negated last component. *)
Lemma successful_estimation c s s' :
  johansen_square N ->
  NoDup (map fst (bar_type (config s))) ->
  try_update_betas c s = (s', inr tt) ->
  exists m evec last_coeff,
    coint_johansen (map snd (collect_data c (config s))) = inr m
    /\ column0 m = inr evec
    /\ last evec = Some last_coeff
    /\ length evec = length (bar_type (config s))
    /\ (forall j id e,
           map fst (bar_type (config s)) !! j = Some id ->
           evec !! j = Some e ->
           betas s' !! id = Some (e / - last_coeff)%float)
    /\ (forall id,
           last (map fst (bar_type (config s))) = Some id ->
           is_finite_nonzero last_coeff = true ->
           betas s' !! id = Some (-1)%float).
Proof.
  intros Hsq Hnd. unfold try_update_betas. run_monad.
  destruct (estimate _) as [e|[cols arr]] eqn:He; simpl; [discriminate|].
  intros Hloop.
  pose proof (estimate_shape _ _ _ Hsq He) as Hlen.
  apply estimate_ok in He as (-> & m & evec & lc & Hj & Hc & Hl & ->).
  rewrite collect_data_keys in *. rewrite !length_map in Hlen.
  destruct (assign_loop_lookup (map fst (bar_type (config s)))
              (map (fun e => (- e / lc)%float) evec) 0 s Hnd) as [Hin _].
  { rewrite !length_map. lia. }
  rewrite Hloop in Hin. simpl in Hin.
  assert (Hcomp : forall j id e,
             map fst (bar_type (config s)) !! j = Some id ->
             evec !! j = Some e ->
             betas s' !! id = Some (e / - lc)%float).
  { intros j id e Hid Hej. rewrite (Hin j id Hid), list_lookup_fmap, Hej.
    simpl. by rewrite opp_div_swap. }
  exists m, evec, lc. repeat split; try done.
  intros id Hlast Hfin.
  rewrite last_lookup in Hlast. rewrite last_lookup in Hl.
  rewrite length_map in Hlast.
  rewrite Hlen in Hl.
  rewrite (Hcomp _ _ _ Hlast Hl), <- opp_div_swap. by rewrite opp_div_self.
Qed.

End KeepsBetas.

(** C7.  The betas built by the constructor are 1.0 for the first
    instrument and -1.0 for the second.  Along any run of [on_bar] both
    instruments of the pair keep an entry, and no key is added but the keys
    of [bar_type].  When a re-estimation succeeds (the keys of [bar_type]
    being distinct and [coint_johansen] returning one row per column),
    every column's beta is its component of the first column of [evec]
    divided by the negated last component, and the beta of the last column
    is exactly -1 when that last component is a finite nonzero number. *)
Theorem C7_betas_normalised :
  forall (N : Numerics) (cfg : PairTradingStrategyConfig) (s0 : Strategy)
         (cs : list Cache) (c : Cache) (s s' : Strategy),
    (PairTradingStrategy_init cfg = inr s0 ->
     betas s0 !! instrument_id_2 cfg = Some (-1)%float
     /\ (instrument_id_1 cfg <> instrument_id_2 cfg ->
         betas s0 !! instrument_id_1 cfg = Some 1%float)
     /\ dom (betas s0) = pair_ids cfg
     /\ (forall id, id ∈ pair_ids cfg ->
                    is_Some (betas (fst (run cs s0)) !! id))
     /\ (forall id, is_Some (betas (fst (run cs s0)) !! id) ->
                    id ∈ pair_ids cfg \/ id ∈ map fst (bar_type cfg)))
    /\ (johansen_square N ->
        NoDup (map fst (bar_type (config s))) ->
        try_update_betas c s = (s', inr tt) ->
        _update_betas c s = (s', inr tt)
        /\ exists m evec last_coeff,
             coint_johansen (map snd (collect_data c (config s))) = inr m
             /\ column0 m = inr evec
             /\ last evec = Some last_coeff
             /\ length evec = length (bar_type (config s))
             /\ (forall j id e,
                    map fst (bar_type (config s)) !! j = Some id ->
                    evec !! j = Some e ->
                    betas s' !! id = Some (e / - last_coeff)%float)
             /\ (forall id,
                    last (map fst (bar_type (config s))) = Some id ->
                    is_finite_nonzero last_coeff = true ->
                    betas s' !! id = Some (-1)%float)).
Proof.
  intros N cfg s0 cs c s s'. split.
  - intros Hinit.
    destruct (init_betas cfg s0 Hinit) as (Hcfg & H2 & H1 & Hdom).
    repeat split; try done.
    + intros id Hid. apply (run_dom cs s0 id).
      apply elem_of_dom. by rewrite Hdom.
    + intros id Hs. destruct (run_dom cs s0 id) as [_ Hhi].
      destruct (Hhi Hs) as [Hin|Hin].
      * left. rewrite <- Hdom. by apply elem_of_dom.
      * right. by rewrite <- Hcfg.
  - intros Hsq Hnd Htry. split.
    + unfold _update_betas. by rewrite Htry.
    + by apply successful_estimation.
Qed.

Lemma C7_witness :
  let s := tenth_strategy None in
  let s' := fst (try_update_betas (H := toy_numerics) estimation_cache s) in
  betas s !! "B" = Some (-1)%float
  /\ betas s' !! "A" = Some (1 / - -2)%float
  /\ betas s' !! "B" = Some (-1)%float.
Proof.
  intros s s'.
  destruct (C7_betas_normalised toy_numerics (pair_config 3 0.7 0.5) s
              [estimation_cache] estimation_cache s s') as [Hinit Hest].
  destruct Hinit as (Hb & _); [vm_compute; reflexivity|].
  destruct Hest as (_ & m & evec & lc & Hj & Hc & Hl & _ & Hcomp & Hlast).
  - apply toy_johansen_square.
  - apply (bool_decide_unpack _). vm_compute. reflexivity.
  - vm_compute. reflexivity.
  - assert (Hm : m = [[1; 0]; [-2; 1]]%float) by (vm_compute in Hj; congruence).
    subst m. injection Hc as <-. injection Hl as <-.
    split; [exact Hb|]. split.
    + apply (Hcomp 0%nat "A" 1%float); reflexivity.
    + apply (Hlast "B"); reflexivity.
Defined.

(** ** C10: the lookup of line 119 *)

Lemma spread_loop_total c b items : forall acc,
  (forall k bt, (k, bt) ∈ items -> is_Some (bar c bt)) ->
  is_Some (spread_loop c b items acc).
Proof.
  induction items as [|[k bt] r IH]; intros acc Hall; [by eexists|].
  simpl. destruct (Hall k bt) as [lb ->]; [apply list_elem_of_here|].
  apply IH. intros k' bt' Hin. apply (Hall k' bt'). by apply list_elem_of_further.
Qed.

(** C10.  [self.betas.get(id, 0.0)] yields 0.0 for an instrument without
    an entry, and the product with a finite close is then a zero.
    [_update_spread] never raises, whatever the betas hold; when the cache
    has a latest bar for every leg the loop ends with a value, and every
    value with which the loop ends is appended to the spread buffer.  With
    betas holding "A" alone and closes 0.2 and 0.1 the value 0.2 is
    appended. *)
Theorem C10_missing_beta_counts_zero :
  forall (c : Cache) (s : Strategy) (id : InstrumentId) (p : float),
    (betas s !! id = None -> betas_get (betas s) id = 0%float)
    /\ (betas s !! id = None -> is_finite p = true ->
        PrimFloat.eqb (betas_get (betas s) id * p) 0 = true)
    /\ snd (_update_spread c s) = inr tt
    /\ ((forall k bt, (k, bt) ∈ bar_type (config s) -> is_Some (bar c bt)) ->
        is_Some (spread_loop c (betas s) (bar_type (config s)) 0))
    /\ (forall v,
           spread_loop c (betas s) (bar_type (config s)) 0 = Some v ->
           spread (fst (_update_spread c s))
           = deque_append (formation_window (config s)) v (spread s))
    /\ betas one_beta_strategy !! "B" = None
    /\ _update_spread tenth_cache one_beta_strategy
       = (set_spread [0.2%float] one_beta_strategy, inr tt).
Proof.
  intros c s id p. split; [|split; [|split; [|split; [|split]]]].
  - unfold betas_get. by intros ->.
  - unfold betas_get. intros -> Hp. simpl. by apply zero_mul_finite.
  - unfold _update_spread. run_monad. by destruct (spread_loop _ _ _ _).
  - apply spread_loop_total.
  - intros v Hv. unfold _update_spread. run_monad. by rewrite Hv.
  - split; vm_compute; reflexivity.
Qed.

Lemma C10_witness :
  betas_get (betas one_beta_strategy) "B" = 0%float
  /\ PrimFloat.eqb (betas_get (betas one_beta_strategy) "B" * 0.1) 0 = true
  /\ is_Some (spread_loop tenth_cache (betas one_beta_strategy)
                (bar_type (config one_beta_strategy)) 0)
  /\ spread (fst (_update_spread tenth_cache one_beta_strategy)) = [0.2%float].
Proof.
  destruct (C10_missing_beta_counts_zero tenth_cache one_beta_strategy "B" 0.1)
    as (H1 & H2 & _ & H4 & H5 & _).
  split; [apply H1; vm_compute; reflexivity|].
  split; [apply H2; vm_compute; reflexivity|].
  split.
  - apply H4. intros k bt _. unfold tenth_cache, pair_cache. simpl.
    destruct (decide _); by eexists.
  - apply (H5 0.2%float). vm_compute. reflexivity.
Defined.

(** ** C9: the diagnostic row *)

(** Every row that [append_row] writes repeats the beta of the first
    instrument in its third and in its fourth cell. *)
Lemma append_row_cells c spread_array z_score s s' :
  append_row c spread_array z_score s = (s', inr tt) ->
  exists p1 p2 b1 x,
    betas s !! instrument_id_1 (config s) = Some b1
    /\ calc_pd s' = calc_pd s ++ [[CellBar p1; CellBar p2; CellFloat b1;
                                   CellFloat b1; CellFloat x; CellFloat z_score]].
Proof.
  unfold append_row. run_monad.
  destruct (dict_get _ (instrument_id_1 _)) as [bt1|]; simpl; [|discriminate].
  destruct (dict_get _ (instrument_id_2 _)) as [bt2|]; simpl; [|discriminate].
  destruct (betas s !! _) as [b1|]; simpl; [|discriminate].
  destruct (last spread_array) as [x|]; simpl; [|discriminate].
  intros [= <-]. simpl. by exists (bar c bt1), (bar c bt2), b1, x.
Qed.

(** C9, at a bar that holds with betas 1 and -1: [on_bar] returns and
    appends one row, whose two first cells are the bars themselves, whose
    third and fourth cells are both 1 (the beta of the first leg) although
    the beta of the second leg is -1, and whose last cells are the spread 2
    and the z-score. *)
Theorem C9_fourth_column_is_first_beta :
  let r := on_bar (H := failing_numerics) hold_cache hold_strategy in
  snd r = inr tt
  /\ betas (fst r) !! "A" = Some 1%float
  /\ betas (fst r) !! "B" = Some (-1)%float
  /\ calc_pd (fst r)
     = [[CellBar (Some {| close := 3 |}); CellBar (Some {| close := 1 |});
         CellFloat 1; CellFloat 1; CellFloat 2;
         CellFloat 0.70710678118654746]]
  /\ events (fst r) = [].
Proof. vm_compute. repeat split. Qed.

(** ** C2 and C3: the orders of an entry *)

Lemma leg_quantity_ratio price ctr beta r1 r2 :
  match leg_quantity price ctr beta r1, leg_quantity price ctr beta r2 with
  | inl e1, inl e2 => e1 = e2
  | inr _, inr _ => True
  | _, _ => False
  end.
Proof. unfold leg_quantity. by destruct (py_div _ _). Qed.

Lemma open_loop_ratio c ctr r1 r2 items : forall s,
  open_loop c ctr r1 items s = open_loop c ctr r2 items s.
Proof.
  induction items as [|[k bt] r IH]; intros s; [done|].
  cbn [open_loop]. run_monad.
  destruct (betas s !! k) as [beta|]; simpl; [|done].
  destruct (bar c bt) as [b|]; simpl; [|done].
  pose proof (leg_quantity_ratio (close b) ctr beta r1 r2) as Hq.
  destruct (leg_quantity _ _ _ r1) as [e1|q1], (leg_quantity _ _ _ r2) as [e2|q2];
    simpl; try done; [by subst|].
  destruct (instrument1 s) as [i1|]; simpl; [|done].
  destruct (maquantity i1) as [mq|]; simpl; [|done].
  apply IH.
Qed.

Ltac no_order :=
  exists []; rewrite app_nil_r; split; [done|]; split; [done|];
  intros ? Hev; by apply elem_of_nil in Hev.

(** Every order that the loop of [open_positions] creates carries the absolute value of
    the attribute of line 140, whatever the prices, the betas and the
    capital are. *)
Lemma open_loop_quantities c ctr lsr items : forall s,
  exists evs,
    events (fst (open_loop c ctr lsr items s)) = events s ++ evs
    /\ instrument1 (fst (open_loop c ctr lsr items s)) = instrument1 s
    /\ forall ev, ev ∈ evs ->
         exists id side i1 mq,
           ev = OrderCreated id side (abs mq)
           /\ instrument1 s = Some i1 /\ maquantity i1 = Some mq.
Proof.
  induction items as [|[k bt] r IH]; intros s.
  - simpl. no_order.
  - cbn [open_loop]. run_monad.
    destruct (betas s !! k) as [beta|]; simpl; [|no_order].
    destruct (bar c bt) as [b|]; simpl; [|no_order].
    destruct (leg_quantity _ _ _ _) as [e|q]; simpl; [no_order|].
    destruct (instrument1 s) as [i1|] eqn:Hi; simpl; [|no_order].
    destruct (maquantity i1) as [mq|] eqn:Hm; simpl; [|no_order].
    destruct (IH (emit (OrderCreated k (leg_side beta) (abs mq)) s))
      as (evs & Hev & Hinst & Hall).
    exists (OrderCreated k (leg_side beta) (abs mq) :: evs).
    rewrite Hev, Hinst. simpl. rewrite <- app_assoc. simpl.
    split; [done|]. split; [done|].
    intros ev [->|Hin]%elem_of_cons.
    + by exists k, (leg_side beta), i1, mq.
    + destruct (Hall ev Hin) as (id & side & i1' & mq' & -> & Hi' & Hm').
      simpl in Hi'. rewrite Hi in Hi'. by exists id, side, i1', mq'.
Qed.

(** C2, at the sizing scenario of the specification.  The capital to risk
    is 1000; line 138 computes 0.2 and -0.2 where the specification's
    formula gives 5 and -20; and the order is not created with that value:
    both legs get the absolute value of the attribute read on line 140,
    whatever it is, and [AttributeError] is raised when the instrument has
    no such attribute or is not set. *)
Theorem C2_entry_quantities :
  forall q : float,
    (capital_to_risk_ratio (config (sizing_strategy None)) * 100000 = 1000)%float
    /\ leg_quantity 100 1000 1 1 = inr 0.2%float
    /\ leg_quantity 50 1000 (-2) 1 = inr (-0.2)%float
    /\ spec_quantity 1000 100 1 = 5%float
    /\ spec_quantity 1000 50 (-2) = (-20)%float
    /\ events (fst (open_positions sizing_cache BUY
                      (sizing_strategy (Some {| maquantity := Some q |}))))
       = [OrderCreated "A" BUY (abs q); OrderCreated "B" SELL (abs q)]
    /\ open_positions sizing_cache BUY
         (sizing_strategy (Some {| maquantity := None |}))
       = (sizing_strategy (Some {| maquantity := None |}), inl AttributeError)
    /\ open_positions sizing_cache BUY (sizing_strategy None)
       = (sizing_strategy None, inl AttributeError).
Proof.
  intros q. repeat split; vm_compute; reflexivity.
Qed.

(** C3.  The side of a leg is a function of its beta alone: an entry
    called with SELL does exactly what an entry called with BUY does.  With
    betas 1 and -1 a short-spread entry buys the first leg and sells the
    second, where the specification sells the first and buys the second. *)
Theorem C3_entry_sides_ignore_direction :
  forall (c : Cache) (s : Strategy),
    open_positions c SELL s = open_positions c BUY s
    /\ events (fst (open_positions sizing_cache SELL
                      (tenth_strategy (Some {| maquantity := Some 1%float |}))))
       = [OrderCreated "A" BUY 1; OrderCreated "B" SELL 1]
    /\ spec_side SELL 1 = SELL
    /\ spec_side SELL (-1) = BUY.
Proof.
  intros c s. split.
  - unfold open_positions. run_monad.
    destruct (get_current_equity c); [done|]. apply open_loop_ratio.
  - repeat split; vm_compute; reflexivity.
Qed.

(** ** C4: construction *)

(** C4, as stated, fails: an entry threshold of 0.5 under an exit threshold
    of 1.0 is accepted, and so are negative thresholds. *)
Lemma C4_inverted_thresholds_accepted :
  (0.5 <=? 1.0)%float = true
  /\ (exists s,
         build_engine "A" "B" [("A", "A-1-MINUTE"); ("B", "B-1-MINUTE")]
           None (Some 0.5%float) (Some 1.0%float) None = inr s
         /\ zscore_threshold (config s) = 0.5%float
         /\ exit_zscore_threshold (config s) = 1.0%float)
  /\ (exists s,
         build_engine "A" "B" [("A", "A-1-MINUTE"); ("B", "B-1-MINUTE")]
           None (Some (-1)%float) (Some (-2)%float) None = inr s).
Proof.
  split; [reflexivity|]. split; eexists; [split; [reflexivity|]|]; by vm_compute.
Qed.

(** Whether the constructor accepts a configuration is a matter of the
    formation window alone. *)
Lemma init_outcome cfg :
  PairTradingStrategy_init cfg
  = if ((formation_window cfg <? -9223372036854775808)
        || (9223372036854775807 <? formation_window cfg))%Z then inl OverflowError
    else if (formation_window cfg <? 0)%Z then inl ValueError
    else inr {| config := cfg; instrument1 := None; instrument2 := None;
                spread := [];
                betas := <[instrument_id_2 cfg := (-1.0)%float]>
                           (<[instrument_id_1 cfg := 1.0%float]> ∅);
                calc_pd := []; log := []; events := [] |}.
Proof. reflexivity. Qed.

(** C4 as amended.  Construction checks no threshold.  Whether it succeeds
    does not depend on the thresholds: with two choices of thresholds and
    the other arguments equal, both constructions succeed or both raise
    the same exception.  With a formation window that the deque accepts,
    construction succeeds whatever the thresholds are, and the
    configuration of the strategy holds them as they were given. *)
Theorem C4_no_threshold_validation :
  forall (id1 id2 : InstrumentId) (bt : list (InstrumentId * BarType))
         (fw : option Z) (zt ezt zt' ezt' crr : option float),
    match build_engine id1 id2 bt fw zt ezt crr,
          build_engine id1 id2 bt fw zt' ezt' crr with
    | inl e, inl e' => e = e'
    | inr _, inr _ => True
    | _, _ => False
    end
    /\ ((0 <= default 200 fw <= 9223372036854775807)%Z ->
        exists s,
          build_engine id1 id2 bt fw zt ezt crr = inr s
          /\ zscore_threshold (config s) = default 2.0%float zt
          /\ exit_zscore_threshold (config s) = default 0.5%float ezt).
Proof.
  intros id1 id2 bt fw zt ezt zt' ezt' crr.
  unfold build_engine, new_config. rewrite !init_outcome. cbn [formation_window].
  split.
  - destruct (_ || _); [done|]. by destruct (_ <? _)%Z.
  - intros [Hlo Hhi].
    destruct (Z.ltb_spec (default 200%Z fw) (-9223372036854775808)); [lia|].
    destruct (Z.ltb_spec 9223372036854775807 (default 200%Z fw)); [lia|].
    destruct (Z.ltb_spec (default 200%Z fw) 0); [lia|].
    simpl. eexists. by split.
Qed.

Lemma C4_witness :
  exists s,
    build_engine "A" "B" [("A", "A-1-MINUTE"); ("B", "B-1-MINUTE")]
      (Some 5%Z) (Some 0.5%float) (Some 1.0%float) None = inr s
    /\ zscore_threshold (config s) = 0.5%float
    /\ exit_zscore_threshold (config s) = 1.0%float.
Proof.
  destruct (C4_no_threshold_validation "A" "B"
              [("A", "A-1-MINUTE"); ("B", "B-1-MINUTE")]
              (Some 5%Z) (Some 0.5%float) (Some 1.0%float) None None None)
    as [_ Hok].
  apply Hok. simpl. lia.
Defined.

(** * Further properties of the strategy *)

(** ** The spread buffer *)

Lemma deque_append_length w x d :
  length (deque_append w x d) = Nat.min (length d + 1) (Z.to_nat w).
Proof.
  unfold deque_append. rewrite length_drop, length_app. simpl. lia.
Qed.

Lemma spread_loop_missing c b items : forall acc id bt,
  (id, bt) ∈ items -> bar c bt = None -> spread_loop c b items acc = None.
Proof.
  induction items as [|[k bt'] r IH]; intros acc id bt Hin Hnone.
  - by apply elem_of_nil in Hin.
  - simpl. apply elem_of_cons in Hin as [[= <- <-]|Hin]; [by rewrite Hnone|].
    destruct (bar c bt'); [|done]. by apply (IH _ id bt).
Qed.

(** What [_update_spread] does to the buffer: nothing, or one append. *)
Lemma _update_spread_cases c s :
  _update_spread c s = (s, inr tt)
  \/ exists v,
       spread_loop c (betas s) (bar_type (config s)) 0 = Some v
       /\ _update_spread c s
          = (set_spread (deque_append (formation_window (config s)) v (spread s)) s,
             inr tt).
Proof.
  unfold _update_spread. run_monad.
  destruct (spread_loop _ _ _ _) as [v|]; [right; by exists v|by left].
Qed.

(** *** What the actions of a decision touch *)

Lemma only_events_bind {A B} (m : M A) (k : A -> M B) :
  only_events m -> (forall a, only_events (k a)) -> only_events (bind m k).
Proof.
  intros Hm Hk s. unfold bind. specialize (Hm s).
  destruct (m s) as [s1 [e|a]]; simpl in *; [done|].
  specialize (Hk a s1). simpl in Hk. intuition congruence.
Qed.

Lemma only_events_lift {A} (r : exn + A) : only_events (lift r).
Proof. intros s. simpl. tauto. Qed.

Lemma only_events_ret {A} (a : A) : only_events (ret a).
Proof. intros s. simpl. tauto. Qed.

Lemma only_events_get : only_events get.
Proof. intros s. simpl. tauto. Qed.

Lemma only_events_emit ev : only_events (modify (emit ev)).
Proof. intros s. simpl. tauto. Qed.

Ltac only_events :=
  repeat first
    [ apply only_events_bind; [|intros ?]
    | apply only_events_lift | apply only_events_ret | apply only_events_get
    | apply only_events_emit ].

Lemma only_events_close_loop ps : only_events (close_loop ps).
Proof. induction ps as [|p r IH]; cbn [close_loop]; only_events. apply IH. Qed.

Lemma only_events_open_loop c ctr lsr items :
  only_events (open_loop c ctr lsr items).
Proof.
  induction items as [|[k bt] r IH]; cbn [open_loop]; only_events. apply IH.
Qed.

Lemma only_events_open_positions c o : only_events (open_positions c o).
Proof. unfold open_positions. only_events. apply only_events_open_loop. Qed.

Lemma only_events_act c sg : only_events (act c sg).
Proof.
  destruct sg; cbn [act].
  - apply only_events_ret.
  - apply only_events_open_positions.
  - apply only_events_open_positions.
  - apply only_events_close_loop.
Qed.

(** [append_row] either raises and leaves the strategy as it is, or adds
    one row of six cells and touches nothing else. *)
Lemma append_row_cases c spread_array z_score s :
  (exists e, append_row c spread_array z_score s = (s, inl e))
  \/ (exists row,
         append_row c spread_array z_score s = (add_row row s, inr tt)
         /\ length row = 6%nat).
Proof.
  unfold append_row. run_monad.
  destruct (dict_get _ (instrument_id_1 _)); simpl; [|left; by eexists].
  destruct (dict_get _ (instrument_id_2 _)); simpl; [|left; by eexists].
  destruct (betas s !! _); simpl; [|left; by eexists].
  destruct (last spread_array); simpl; [|left; by eexists].
  right. by eexists.
Qed.

(** *** The shape of one call of [on_bar] *)

Section OnBarShape.
Context `{N : Numerics}.

(** The outcomes of lines 65-91 on a strategy [s]: an early return, an
    [IndexError] on an empty window, an exception after the action of the
    decision, or one more row after it. *)
Lemma on_full_window_cases c s :
  (PrimFloat.eqb (np_std (spread s)) 0 = true /\ on_full_window c s = (s, inr tt))
  \/ (PrimFloat.eqb (np_std (spread s)) 0 = false
      /\ ((last (spread s) = None /\ on_full_window c s = (s, inl IndexError))
          \/ exists x,
               last (spread s) = Some x
               /\ let z_score := ((x - np_mean (spread s)) / np_std (spread s))%float in
                  let r := act c (on_bar_signal (config s) (_has_open_positions c)
                                    z_score) s in
                  (exists e, on_full_window c s = (fst r, inl e))
                  \/ (snd r = inr tt
                      /\ exists row,
                           on_full_window c s = (add_row row (fst r), inr tt)
                           /\ length row = 6%nat))).
Proof.
  destruct (PrimFloat.eqb (np_std (spread s)) 0) eqn:Hstd.
  - left. split; [done|]. unfold on_full_window. run_monad. by rewrite Hstd.
  - right. split; [done|].
    destruct (last (spread s)) as [x|] eqn:Hlast.
    + right. exists x. split; [done|]. cbn zeta.
      rewrite (on_full_window_decides c s x Hstd Hlast). unfold bind.
      destruct (act c _ s) as [s2 [e|[]]]; simpl.
      * left. by exists e.
      * destruct (append_row_cases c (spread s)
                    ((x - np_mean (spread s)) / np_std (spread s))%float s2)
          as [[e ->]|(row & -> & Hrow)].
        -- left. by exists e.
        -- right. split; [done|]. by exists row.
    + left. split; [done|]. unfold on_full_window. run_monad.
      by rewrite Hstd, Hlast.
Qed.

(** [on_bar] leaves the spread buffer as the two updates left it. *)
Lemma on_bar_spread c s :
  spread (fst (on_bar c s)) = spread s
  \/ (_has_enough_bars c (config s) = true
      /\ spread (fst (on_bar c s)) = spread (after_updates c s)).
Proof.
  destruct (_has_enough_bars c (config s)) eqn:He.
  - right. split; [done|]. rewrite on_bar_enough by done. cbn zeta.
    destruct (_ <? _)%Z; [done|].
    destruct (on_full_window_cases c (after_updates c s))
      as [[_ ->]|[_ [[_ ->]|(x & _ & Hx)]]]; try done.
    cbn zeta in Hx.
    pose proof (only_events_act c
                  (on_bar_signal (config (after_updates c s)) (_has_open_positions c)
                     ((x - np_mean (spread (after_updates c s)))
                      / np_std (spread (after_updates c s)))%float)
                  (after_updates c s)) as (_ & _ & _ & Hsp & _).
    destruct Hx as [[e ->]|(_ & row & -> & _)]; simpl; done.
  - left. unfold on_bar. run_monad. by rewrite He.
Qed.

Lemma after_updates_spread c s :
  spread (after_updates c s) = spread s
  \/ exists v,
       spread (after_updates c s)
       = deque_append (formation_window (config s)) v (spread s).
Proof.
  unfold after_updates, bind.
  pose proof (_update_betas_returns c s) as Hr.
  pose proof (_update_betas_frame c s) as (Hc & Hsp & _).
  destruct (_update_betas c s) as [s1 [e|[]]]; simpl in *; [done|].
  destruct (_update_spread_cases c s1) as [->|(v & _ & ->)]; simpl.
  - by left.
  - right. exists v. by rewrite Hc, Hsp.
Qed.

Lemma on_bar_bounded c s :
  (0 <= formation_window (config s))%Z ->
  (Z.of_nat (length (spread s)) <= formation_window (config s))%Z ->
  (Z.of_nat (length (spread (fst (on_bar c s)))) <= formation_window (config s))%Z.
Proof.
  intros Hw Hb.
  destruct (on_bar_spread c s) as [->|[_ ->]]; [done|].
  destruct (after_updates_spread c s) as [->|[v ->]]; [done|].
  rewrite deque_append_length. lia.
Qed.

Lemma run_bounded cs : forall s,
  (0 <= formation_window (config s))%Z ->
  (Z.of_nat (length (spread s)) <= formation_window (config s))%Z ->
  (Z.of_nat (length (spread (fst (run cs s)))) <= formation_window (config s))%Z.
Proof.
  induction cs as [|c r IH]; intros s Hw Hb; [done|].
  cbn [run]. unfold bind.
  pose proof (on_bar_bounded c s Hw Hb) as Hb1.
  pose proof (on_bar_betas c s) as [Hc _].
  destruct (on_bar c s) as [s1 [e|[]]]; simpl in *; [done|].
  rewrite <- Hc. apply IH; by rewrite Hc.
Qed.

End OnBarShape.

(** X1.  The spread buffer of a strategy built by the constructor never
    holds more than [formation_window] values, whatever bars it is run
    on. *)
Theorem spread_buffer_bounded :
  forall (N : Numerics) (cfg : PairTradingStrategyConfig) (s0 : Strategy)
         (cs : list Cache),
    PairTradingStrategy_init cfg = inr s0 ->
    (Z.of_nat (length (spread (fst (run cs s0)))) <= formation_window cfg)%Z.
Proof.
  intros N cfg s0 cs Hinit.
  destruct (init_betas cfg s0 Hinit) as (Hcfg & _).
  unfold PairTradingStrategy_init in Hinit.
  destruct (_ || _); [discriminate|].
  destruct (Z.ltb_spec (formation_window cfg) 0) as [|Hw]; [discriminate|].
  injection Hinit as <-. apply (run_bounded cs); simpl; lia.
Qed.

Lemma spread_buffer_bounded_witness :
  (Z.of_nat (length (spread (fst (run (H := failing_numerics)
                                    (replicate 5 tenth_cache)
                                    (pair_strategy (pair_config 3 2.0 0.5)
                                       None [] 1 (-1)))))) <= 3)%Z.
Proof.
  apply (spread_buffer_bounded failing_numerics (pair_config 3 2.0 0.5)).
  vm_compute. reflexivity.
Defined.

(** X2.  When the loop of [_update_spread] ends with a value, a buffer
    that is not full gets the value appended, and a full buffer loses its
    oldest value and gets the new one at the end. *)
Theorem spread_buffer_slides :
  forall (c : Cache) (s : Strategy) (v : float),
    spread_loop c (betas s) (bar_type (config s)) 0 = Some v ->
    ((Z.of_nat (length (spread s)) < formation_window (config s))%Z ->
     spread (fst (_update_spread c s)) = spread s ++ [v])
    /\ (forall y d,
           spread s = y :: d ->
           Z.of_nat (length (spread s)) = formation_window (config s) ->
           spread (fst (_update_spread c s)) = d ++ [v]).
Proof.
  intros c s v Hv.
  assert (Hs : spread (fst (_update_spread c s))
               = deque_append (formation_window (config s)) v (spread s)).
  { unfold _update_spread. run_monad. by rewrite Hv. }
  rewrite Hs. unfold deque_append. rewrite length_app. simpl. split.
  - intros Hlt.
    replace (length (spread s) + 1 - Z.to_nat (formation_window (config s)))%nat
      with 0%nat by lia.
    done.
  - intros y d Hd Hfull. rewrite Hd in *. simpl in *.
    replace (S (length d + 1) - Z.to_nat (formation_window (config s)))%nat
      with 1%nat by lia.
    done.
Qed.

Lemma spread_buffer_slides_witness :
  let s := pair_strategy (pair_config 3 2.0 0.5) None [1; 2; 3]%float 1 (-1) in
  spread (fst (_update_spread tenth_cache s)) = [2; 3; 0.1]%float
  /\ spread (fst (_update_spread tenth_cache (tenth_strategy None))) = [0.1]%float.
Proof.
  intros s.
  destruct (spread_buffer_slides tenth_cache s 0.1%float) as [_ Hfull];
    [vm_compute; reflexivity|].
  destruct (spread_buffer_slides tenth_cache (tenth_strategy None) 0.1%float)
    as [Hshort _]; [vm_compute; reflexivity|].
  split.
  - apply (Hfull 1%float [2; 3]%float); vm_compute; reflexivity.
  - apply Hshort. vm_compute. reflexivity.
Defined.

(** X3.  When the cache has no latest bar for some leg, [_update_spread]
    returns with the strategy as it was: nothing is appended, not even the
    part of the sum over the legs before that one. *)
Theorem missing_latest_bar_appends_nothing :
  forall (c : Cache) (s : Strategy) (id : InstrumentId) (bt : BarType),
    (id, bt) ∈ bar_type (config s) ->
    bar c bt = None ->
    _update_spread c s = (s, inr tt).
Proof.
  intros c s id bt Hin Hnone. unfold _update_spread. run_monad.
  by rewrite (spread_loop_missing c (betas s) _ 0 id bt Hin Hnone).
Qed.

Lemma missing_latest_bar_witness :
  _update_spread half_cache (tenth_strategy None) = (tenth_strategy None, inr tt).
Proof.
  apply (missing_latest_bar_appends_nothing half_cache (tenth_strategy None)
           "B" "B-1-MINUTE").
  - vm_compute. apply list_elem_of_further, list_elem_of_here.
  - vm_compute. reflexivity.
Defined.

(** ** The guard of line 57 and the data of the estimation *)

Lemma has_enough_loop_true c w bts :
  has_enough_loop c w bts = true ->
  forall bt, bt ∈ bts -> (w <= Z.of_nat (length (bars c bt)))%Z.
Proof.
  induction bts as [|b r IH]; intros Ht bt Hin; [by apply elem_of_nil in Hin|].
  simpl in Ht.
  destruct (Z.ltb_spec (Z.of_nat (length (bars c b))) w) as [|Hge]; [done|].
  apply elem_of_cons in Hin as [->|Hin]; [done|]. by apply IH.
Qed.

Lemma has_enough_loop_all c w bts :
  (forall bt, bt ∈ bts -> (w <= Z.of_nat (length (bars c bt)))%Z) ->
  has_enough_loop c w bts = true.
Proof.
  induction bts as [|b r IH]; intros Hall; [done|].
  simpl. destruct (Z.ltb_spec (Z.of_nat (length (bars c b))) w) as [Hlt|_].
  - specialize (Hall b (list_elem_of_here _ _)). lia.
  - apply IH. intros bt Hin. apply Hall. by apply list_elem_of_further.
Qed.

(** X4.  [_has_enough_bars] answers True exactly when every bar type of
    the configuration has at least [formation_window] bars in the cache;
    so it does for a configuration without bar types and for a window of
    zero. *)
Theorem has_enough_bars_iff :
  forall (c : Cache) (cfg : PairTradingStrategyConfig),
    _has_enough_bars c cfg = true
    <-> (forall id bt, (id, bt) ∈ bar_type cfg ->
                       (formation_window cfg <= Z.of_nat (length (bars c bt)))%Z).
Proof.
  intros c cfg. unfold _has_enough_bars. split.
  - intros Ht id bt Hin. apply (has_enough_loop_true _ _ _ Ht).
    apply list_elem_of_fmap. by exists (id, bt).
  - intros Hall. apply has_enough_loop_all. intros bt Hin.
    apply list_elem_of_fmap in Hin as ([id bt'] & -> & Hin). by apply (Hall id).
Qed.

Lemma slice_from_last {A} (w : Z) (l : list A) :
  (0 < w)%Z -> (w <= Z.of_nat (length l))%Z ->
  slice_from (- w) l = drop (length l - Z.to_nat w) l
  /\ length (slice_from (- w) l) = Z.to_nat w.
Proof.
  intros Hw Hl. unfold slice_from.
  destruct (Z.ltb_spec (- w) 0) as [_|]; [|lia].
  replace (Z.to_nat (Z.max 0 (Z.of_nat (length l) + - w)))
    with (length l - Z.to_nat w)%nat by lia.
  split; [done|]. rewrite length_drop. lia.
Qed.

Lemma DataFrame_same_length data n :
  Forall (fun kc => length (snd kc) = n) data -> DataFrame data = inr data.
Proof.
  intros Hall. unfold DataFrame. destruct data as [|[k col] r]; [done|].
  apply Forall_cons in Hall as [Hcol Hr]. simpl in Hcol.
  assert (Hb : forallb (fun '(_, col') => (length col' =? length col)%nat) r = true).
  { apply forallb_forall. intros [k' col'] Hin.
    apply Nat.eqb_eq. rewrite Forall_forall in Hr.
    specialize (Hr (k', col')). simpl in Hr. rewrite Hcol. apply Hr.
    by apply list_elem_of_In. }
  by rewrite Hb.
Qed.

(** X5.  Past the guard of line 57 and with a positive window, the data
    handed to the estimation hold, for every leg, exactly
    [formation_window] closes: those of the last [formation_window]
    entries of [cache.bars].  The columns having one length,
    [pd.DataFrame] does not raise. *)
Theorem estimation_window_is_exact :
  forall (c : Cache) (cfg : PairTradingStrategyConfig),
    (0 < formation_window cfg)%Z ->
    _has_enough_bars c cfg = true ->
    collect_data c cfg
    = map (fun '(id, bt) =>
             (id, map close (drop (length (bars c bt)
                                   - Z.to_nat (formation_window cfg)) (bars c bt))))
          (bar_type cfg)
    /\ Forall (fun kc => length (snd kc) = Z.to_nat (formation_window cfg))
              (collect_data c cfg)
    /\ DataFrame (collect_data c cfg) = inr (collect_data c cfg).
Proof.
  intros c cfg Hw He.
  assert (Hall : forall id bt, (id, bt) ∈ bar_type cfg ->
            (formation_window cfg <= Z.of_nat (length (bars c bt)))%Z).
  { intros id bt Hin. apply (has_enough_loop_true _ _ _ He).
    apply list_elem_of_fmap. by exists (id, bt). }
  assert (Hlen : Forall (fun kc => length (snd kc) = Z.to_nat (formation_window cfg))
                   (collect_data c cfg)).
  { unfold collect_data. apply Forall_fmap, Forall_forall. intros [id bt] Hin.
    simpl. rewrite length_map.
    by apply slice_from_last, (Hall id). }
  split; [|split; [done|by apply DataFrame_same_length with (n := Z.to_nat (formation_window cfg))]].
  unfold collect_data. apply map_ext_in. intros [id bt] Hin.
  apply list_elem_of_In in Hin.
  by rewrite (proj1 (slice_from_last _ (bars c bt) Hw (Hall id bt Hin))).
Qed.

Lemma estimation_window_witness :
  let c := pair_cache [1; 2; 3; 4; 5]%float 5 10 100000 in
  collect_data c (pair_config 3 2.0 0.5)
  = [("A", [3; 4; 5]%float); ("B", [3; 4; 5]%float)]
  /\ DataFrame (collect_data c (pair_config 3 2.0 0.5))
     = inr (collect_data c (pair_config 3 2.0 0.5)).
Proof.
  intros c.
  destruct (estimation_window_is_exact c (pair_config 3 2.0 0.5))
    as (Hd & _ & Hdf); [done|vm_compute; reflexivity|].
  split; [|exact Hdf]. rewrite Hd. vm_compute. reflexivity.
Defined.

(** ** Degenerate windows and z-scores *)

Lemma has_enough_loop_zero c w bts :
  (w <= 0)%Z -> has_enough_loop c w bts = true.
Proof.
  intros Hw. apply has_enough_loop_all. intros bt _. lia.
Qed.

(** X6.  A formation window of zero passes the constructor, but then the
    buffer stays empty and every bar, whatever the cache holds, ends in an
    [IndexError] on line 70 when numpy's standard deviation of an empty
    array is not zero (it is NaN): the estimation and the spread update
    have run, no order is created and no row is written. *)
Theorem zero_window_raises :
  forall (N : Numerics) (c : Cache) (s : Strategy),
    formation_window (config s) = 0%Z ->
    spread s = [] ->
    PrimFloat.eqb (np_std []) 0 = false ->
    on_bar c s = (after_updates c s, inl IndexError)
    /\ spread (after_updates c s) = []
    /\ events (after_updates c s) = events s
    /\ calc_pd (after_updates c s) = calc_pd s.
Proof.
  intros N c s Hw Hsp Hstd.
  assert (He : _has_enough_bars c (config s) = true).
  { unfold _has_enough_bars. apply has_enough_loop_zero. lia. }
  assert (Hs1 : spread (after_updates c s) = []).
  { destruct (after_updates_spread c s) as [->|[v ->]]; [done|].
    rewrite Hw, Hsp. reflexivity. }
  pose proof (after_updates_frame c s) as (Hc & Hev & Hpd & _).
  rewrite on_bar_enough by done. cbn zeta. rewrite Hs1, Hw. simpl.
  unfold on_full_window. run_monad. rewrite Hs1, Hstd. simpl. done.
Qed.

Lemma zero_window_raises_witness :
  exists s,
    PairTradingStrategy_init (pair_config 0 2.0 0.5) = inr s
    /\ snd (on_bar (H := failing_numerics) tenth_cache s) = inl IndexError.
Proof.
  eexists. split; [reflexivity|].
  match goal with |- snd (on_bar _ ?s) = _ =>
    destruct (zero_window_raises failing_numerics tenth_cache s) as [-> _]
  end; vm_compute; reflexivity.
Defined.

(** X7.  A z-score that is NaN never triggers anything: with or without an
    open position, and whatever the thresholds, the decision is HOLD. *)
Theorem nan_z_score_holds :
  forall (cfg : PairTradingStrategyConfig) (has_open : bool),
    on_bar_signal cfg has_open nan = HOLD.
Proof.
  intros cfg has_open. unfold on_bar_signal.
  assert (H1 : forall t, (abs nan <? t)%float = false).
  { intros t. rewrite ltb_spec. reflexivity. }
  assert (H2 : forall t, (t <? nan)%float = false).
  { intros t. rewrite ltb_spec. change (Prim2SF nan) with S754_nan.
    unfold SFltb. by destruct (Prim2SF t). }
  assert (H3 : forall t, (nan <? t)%float = false).
  { intros t. rewrite ltb_spec. reflexivity. }
  rewrite H1, H2, H3. by destruct has_open.
Qed.

(** ** Entries *)

(** The orders of the loop of [open_positions]: as many as legs when it
    returns, fewer when it raises. *)
Lemma open_loop_count c ctr lsr items : forall s,
  exists evs,
    events (fst (open_loop c ctr lsr items s)) = events s ++ evs
    /\ Forall is_order evs
    /\ (snd (open_loop c ctr lsr items s) = inr tt -> length evs = length items)
    /\ (forall e, snd (open_loop c ctr lsr items s) = inl e ->
                  (length evs < length items)%nat).
Proof.
  induction items as [|[k bt] r IH]; intros s.
  - exists []. simpl. rewrite app_nil_r.
    split; [done|]. split; [constructor|]. split; [done|]. by intros e.
  - cbn [open_loop]. run_monad.
    assert (Hstop : forall e : exn, exists evs : list Event,
               events s = events s ++ evs /\ Forall is_order evs
               /\ (@inl exn unit e = inr tt -> length evs = S (length r))
               /\ (forall e', @inl exn unit e = inl e' ->
                              (length evs < S (length r))%nat)).
    { intros e. exists []. rewrite app_nil_r. simpl.
      split; [done|]. split; [constructor|]. split; [done|]. intros _ _. lia. }
    destruct (betas s !! k) as [beta|]; simpl; [|apply Hstop].
    destruct (bar c bt) as [b|]; simpl; [|apply Hstop].
    destruct (leg_quantity _ _ _ _) as [e|q]; simpl; [apply Hstop|].
    destruct (instrument1 s) as [i1|]; simpl; [|apply Hstop].
    destruct (maquantity i1) as [mq|]; simpl; [|apply Hstop].
    destruct (IH (emit (OrderCreated k (leg_side beta) (abs mq)) s))
      as (evs & Hev & Hord & Hok & Herr).
    exists (OrderCreated k (leg_side beta) (abs mq) :: evs).
    rewrite Hev. simpl. rewrite <- app_assoc. simpl.
    split; [done|]. split; [by constructor|]. split.
    + intros Hr. by rewrite (Hok Hr).
    + intros e He. specialize (Herr e He). lia.
Qed.

(** X8.  [open_positions] touches nothing but the orders.  When it returns
    it has created one order per leg of [bar_type]; when it raises it has
    created fewer, those of the legs before the failing one, and they stay
    created (or the cache has no account and nothing was created). *)
Theorem open_positions_orders :
  forall (c : Cache) (orderside : OrderSide) (s : Strategy),
    only_events (open_positions c orderside)
    /\ exists evs,
         events (fst (open_positions c orderside s)) = events s ++ evs
         /\ Forall is_order evs
         /\ (snd (open_positions c orderside s) = inr tt ->
             length evs = length (bar_type (config s)))
         /\ (forall e,
                snd (open_positions c orderside s) = inl e ->
                (length evs < length (bar_type (config s)))%nat
                \/ (accounts c = [] /\ evs = [] /\ e = IndexError)).
Proof.
  intros c orderside s. split; [apply only_events_open_positions|].
  unfold open_positions, get_current_equity. run_monad.
  destruct (accounts c) as [|eq rest]; simpl.
  - exists []. rewrite app_nil_r.
    split; [done|]. split; [constructor|]. split; [done|].
    intros e [= <-]. by right.
  - destruct (open_loop_count c (capital_to_risk_ratio (config s) * eq)
                (match orderside with BUY => 1 | SELL => -1 end)%float
                (bar_type (config s)) s) as (evs & Hev & Hord & Hok & Herr).
    exists evs. repeat split; try done. intros e He. left. by apply (Herr e).
Qed.

Lemma open_positions_orders_witness :
  exists evs,
    events (fst (open_positions sizing_cache BUY half_beta_strategy))
    = events half_beta_strategy ++ evs
    /\ ((length evs < 2)%nat
        \/ (accounts sizing_cache = [] /\ evs = [] /\ KeyError = IndexError)).
Proof.
  destruct (open_positions_orders sizing_cache BUY half_beta_strategy)
    as (_ & evs & Hev & _ & _ & Herr).
  exists evs. split; [exact Hev|]. apply (Herr KeyError).
  vm_compute. reflexivity.
Defined.

(** X9.  With a capital to risk whose half is zero (an account without
    balance, a ratio of zero), an entry raises [ZeroDivisionError] on its
    first leg and creates no order. *)
Theorem zero_capital_raises :
  forall (c : Cache) (orderside : OrderSide) (s : Strategy)
         (equity : float) (rest : list float)
         (id : InstrumentId) (bt : BarType) (items : list (InstrumentId * BarType)),
    accounts c = equity :: rest ->
    bar_type (config s) = (id, bt) :: items ->
    is_Some (betas s !! id) ->
    is_Some (bar c bt) ->
    PrimFloat.eqb (capital_to_risk_ratio (config s) * equity / 2) 0 = true ->
    open_positions c orderside s = (s, inl ZeroDivisionError).
Proof.
  intros c orderside s equity rest id bt items Hacc Hbt [beta Hbeta] [b Hb] Hz.
  unfold open_positions, get_current_equity. run_monad.
  rewrite Hacc, Hbt. simpl. run_monad. rewrite Hbeta, Hb. simpl.
  unfold leg_quantity, py_div. by rewrite Hz.
Qed.

Lemma zero_capital_raises_witness :
  open_positions open_cache SELL (tenth_strategy None)
  = (tenth_strategy None, inl ZeroDivisionError).
Proof.
  apply (zero_capital_raises open_cache SELL (tenth_strategy None) 0%float []
           "A" "A-1-MINUTE" [("B", "B-1-MINUTE")]).
  - reflexivity.
  - reflexivity.
  - by eexists.
  - by eexists.
  - vm_compute. reflexivity.
Defined.

(** ** One call of [on_bar] *)

Section OnBarOutputs.
Context `{N : Numerics}.

Lemma act_events c s has_open z :
  let sg := on_bar_signal (config s) has_open z in
  exists evs,
    events (fst (act c sg s)) = events s ++ evs
    /\ (has_open = true -> evs = [] \/ evs = map PositionClosed (positions_open c))
    /\ (has_open = false -> Forall is_order evs).
Proof.
  cbn zeta. unfold on_bar_signal. destruct has_open.
  - destruct (abs z <? _)%float; cbn [act].
    + exists (map PositionClosed (positions_open c)).
      unfold _close_all_positions. rewrite close_loop_events. simpl.
      split; [done|]. split; [by right|done].
    + exists []. unfold ret. simpl. rewrite app_nil_r.
      split; [done|]. split; [by left|done].
  - assert (Hopen : forall o, exists evs,
               events (fst (open_positions c o s)) = events s ++ evs
               /\ (false = true -> evs = [] \/ evs = map PositionClosed (positions_open c))
               /\ (false = false -> Forall is_order evs)).
    { intros o. unfold open_positions. run_monad.
      destruct (get_current_equity c) as [e|eq]; simpl.
      - exists []. rewrite app_nil_r. by repeat split.
      - destruct (open_loop_count c (capital_to_risk_ratio (config s) * eq)
                    (match o with BUY => 1 | SELL => -1 end)%float
                    (bar_type (config s)) s) as (evs & Hev & Hord & _).
        exists evs. by repeat split. }
    destruct (_ <? z)%float; cbn [act]; [apply Hopen|].
    destruct (z <? _)%float; cbn [act]; [apply Hopen|].
    exists []. unfold ret. simpl. rewrite app_nil_r. by repeat split.
Qed.

End OnBarOutputs.

(** X10.  One call of [on_bar] writes at most one diagnostic row and never
    alters the rows already written.  A row is written only when the call
    returns normally, on a full window whose standard deviation is not
    zero, and it has six cells; a call that raises writes none. *)
Theorem on_bar_rows :
  forall (N : Numerics) (c : Cache) (s : Strategy),
    calc_pd (fst (on_bar c s)) = calc_pd s
    \/ exists row,
         calc_pd (fst (on_bar c s)) = calc_pd s ++ [row]
         /\ length row = 6%nat
         /\ snd (on_bar c s) = inr tt
         /\ (formation_window (config s)
             <= Z.of_nat (length (spread (fst (on_bar c s)))))%Z
         /\ PrimFloat.eqb (np_std (spread (fst (on_bar c s)))) 0 = false.
Proof.
  intros N c s.
  destruct (_has_enough_bars c (config s)) eqn:He.
  2:{ left. unfold on_bar. run_monad. by rewrite He. }
  rewrite on_bar_enough by done. cbn zeta.
  pose proof (after_updates_frame c s) as (Hc & _ & Hpd & _).
  destruct (Z.ltb_spec (Z.of_nat (length (spread (after_updates c s))))
              (formation_window (config s))) as [|Hfull]; [by left|].
  destruct (on_full_window_cases c (after_updates c s))
    as [[_ ->]|[Hstd [[_ ->]|(x & _ & Hx)]]]; try by left.
  cbn zeta in Hx.
  pose proof (only_events_act c
                (on_bar_signal (config (after_updates c s)) (_has_open_positions c)
                   ((x - np_mean (spread (after_updates c s)))
                    / np_std (spread (after_updates c s)))%float)
                (after_updates c s)) as (_ & _ & _ & Hsp & _ & Hpd' & _).
  destruct Hx as [[e ->]|(_ & row & -> & Hrow)]; simpl.
  - left. congruence.
  - right. exists row. rewrite Hpd', Hpd, Hsp. by repeat split.
Qed.

(** X11.  The orders and closings of one call of [on_bar] come after those
    already there, and are of one kind: with a position open in the cache
    there is no order, only the closing of every open position or
    nothing; without one there is no closing. *)
Theorem on_bar_events :
  forall (N : Numerics) (c : Cache) (s : Strategy),
    exists evs,
      events (fst (on_bar c s)) = events s ++ evs
      /\ (_has_open_positions c = true ->
          evs = [] \/ evs = map PositionClosed (positions_open c))
      /\ (_has_open_positions c = false -> Forall is_order evs).
Proof.
  intros N c s.
  assert (Hnone : exists evs : list Event,
             events s = events s ++ evs
             /\ (_has_open_positions c = true ->
                 evs = [] \/ evs = map PositionClosed (positions_open c))
             /\ (_has_open_positions c = false -> Forall is_order evs)).
  { exists []. rewrite app_nil_r. split; [done|]. split; [by left|done]. }
  destruct (_has_enough_bars c (config s)) eqn:He.
  2:{ unfold on_bar. run_monad. by rewrite He. }
  rewrite on_bar_enough by done. cbn zeta.
  pose proof (after_updates_frame c s) as (Hc & Hev & _).
  rewrite <- Hev in Hnone |- *.
  destruct (_ <? _)%Z; [done|].
  destruct (on_full_window_cases c (after_updates c s))
    as [[_ ->]|[Hstd [[_ ->]|(x & _ & Hx)]]]; try done.
  cbn zeta in Hx.
  destruct (act_events c (after_updates c s) (_has_open_positions c)
              ((x - np_mean (spread (after_updates c s)))
               / np_std (spread (after_updates c s)))%float)
    as (evs & Hevs & Hopen & Hflat).
  cbn zeta in Hevs.
  exists evs. destruct Hx as [[e ->]|(_ & row & -> & _)]; simpl; by repeat split.
Qed.

Lemma on_bar_events_witness :
  exists evs,
    events (fst (on_bar (H := failing_numerics) hold_cache hold_strategy))
    = events hold_strategy ++ evs
    /\ Forall is_order evs.
Proof.
  destruct (on_bar_events failing_numerics hold_cache hold_strategy)
    as (evs & Hev & _ & Hflat).
  exists evs. split; [exact Hev|]. apply Hflat. reflexivity.
Defined.

(** ** Re-estimation on an unchanged cache *)

Lemma assign_loop_fold columns betas_array : forall i s,
  betas (fst (assign_loop i columns betas_array s))
  = assign_fold i columns betas_array (betas s).
Proof.
  induction columns as [|k r IH]; intros i s; [done|].
  cbn [assign_loop assign_fold]. run_monad.
  destruct (betas_array !! i) as [v|]; simpl; [|done].
  by rewrite IH.
Qed.

Lemma assign_fold_lookup columns betas_array k : forall i b,
  assign_fold i columns betas_array b !! k
  = match assigned i columns betas_array k with
    | Some v => Some v
    | None => b !! k
    end.
Proof.
  induction columns as [|k' r IH]; intros i b; [done|].
  cbn [assign_fold assigned].
  destruct (betas_array !! i) as [v|]; [|done].
  rewrite IH. destruct (assigned (S i) r betas_array k); [done|].
  rewrite lookup_insert. by destruct (decide (k' = k)).
Qed.

Lemma assign_fold_idempotent i columns betas_array b :
  assign_fold i columns betas_array (assign_fold i columns betas_array b)
  = assign_fold i columns betas_array b.
Proof.
  apply map_eq. intros k. rewrite !assign_fold_lookup.
  by destruct (assigned i columns betas_array k).
Qed.

Section Reestimation.
Context `{N : Numerics}.

(** The betas after [_update_betas]: those before, with the assignments of
    a successful estimation. *)
Lemma _update_betas_betas c s :
  config (fst (_update_betas c s)) = config s
  /\ betas (fst (_update_betas c s))
     = match estimate (collect_data c (config s)) with
       | inl _ => betas s
       | inr (columns, betas_array) => assign_fold 0 columns betas_array (betas s)
       end.
Proof.
  pose proof (_update_betas_frame c s) as (Hc & _). split; [done|].
  unfold _update_betas, try_update_betas. run_monad.
  destruct (estimate _) as [e|[cols arr]]; simpl; [done|].
  pose proof (assign_loop_fold cols arr 0 s) as Hf.
  destruct (assign_loop 0 cols arr s) as [s' [e|[]]]; simpl in *; done.
Qed.

End Reestimation.

(** X12.  Estimating twice on the same cache gives the betas of estimating
    once: the estimation reads the cache and the configuration, not the
    betas, and its assignments overwrite. *)
Theorem reestimation_idempotent :
  forall (N : Numerics) (c : Cache) (s : Strategy),
    betas (fst (_update_betas c (fst (_update_betas c s))))
    = betas (fst (_update_betas c s)).
Proof.
  intros N c s.
  destruct (_update_betas_betas c s) as [Hc Hb].
  destruct (_update_betas_betas c (fst (_update_betas c s))) as [_ Hb'].
  rewrite Hb', Hc, Hb.
  destruct (estimate _) as [e|[cols arr]]; [done|].
  apply assign_fold_idempotent.
Qed.

(** X13.  What a successful or failed estimation leaves in the betas does
    not depend on the betas before it, for the keys it assigns: two
    strategies with one configuration agree, after [_update_betas] on one
    cache, on every key on which they agreed before and on every key of a
    column that was assigned. *)
Theorem reestimation_forgets :
  forall (N : Numerics) (c : Cache) (s1 s2 : Strategy) (k : InstrumentId),
    config s1 = config s2 ->
    (betas s1 !! k = betas s2 !! k
     \/ exists columns betas_array v,
          estimate (collect_data c (config s1)) = inr (columns, betas_array)
          /\ assigned 0 columns betas_array k = Some v) ->
    betas (fst (_update_betas c s1)) !! k = betas (fst (_update_betas c s2)) !! k.
Proof.
  intros N c s1 s2 k Hcfg Hk.
  destruct (_update_betas_betas c s1) as [_ ->].
  destruct (_update_betas_betas c s2) as [_ ->].
  rewrite <- Hcfg.
  destruct (estimate _) as [e|[cols arr]].
  - destruct Hk as [Hk|(cols & arr & v & He & _)]; [done|discriminate].
  - rewrite !assign_fold_lookup.
    destruct (assigned 0 cols arr k) eqn:Ha; [done|].
    destruct Hk as [Hk|(cols' & arr' & v & [= <- <-] & Hv)]; [done|congruence].
Qed.

Lemma reestimation_forgets_witness :
  betas (fst (_update_betas (H := toy_numerics) estimation_cache
                (tenth_strategy None))) !! "A"
  = betas (fst (_update_betas (H := toy_numerics) estimation_cache
                  (pair_strategy (pair_config 3 0.7 0.5) None [] 7 3))) !! "A".
Proof.
  apply reestimation_forgets; [reflexivity|].
  right. exists ["A"; "B"], [0.5; -1]%float, 0.5%float.
  split; vm_compute; reflexivity.
Defined.

(** ** Stopping *)

(** X14.  [on_stop] closes the positions only after the report is written:
    when [to_csv] raises, the exception leaves [on_stop] and no position is
    closed; when it returns, every open position of the cache is closed
    once, in order, and nothing else of the strategy changes. *)
Theorem on_stop_closes_after_report :
  forall (to_csv : list (list Cell) -> exn + unit) (c : Cache) (s : Strategy),
    (forall e, to_csv (calc_pd s) = inl e -> on_stop to_csv c s = (s, inl e))
    /\ (to_csv (calc_pd s) = inr tt ->
        snd (on_stop to_csv c s) = inr tt
        /\ events (fst (on_stop to_csv c s))
           = events s ++ map PositionClosed (positions_open c)
        /\ calc_pd (fst (on_stop to_csv c s)) = calc_pd s
        /\ betas (fst (on_stop to_csv c s)) = betas s
        /\ spread (fst (on_stop to_csv c s)) = spread s).
Proof.
  intros to_csv c s. unfold on_stop. run_monad. split.
  - by intros e ->.
  - intros ->. simpl. unfold _close_all_positions.
    rewrite close_loop_events. simpl. by repeat split.
Qed.

Lemma on_stop_witness :
  on_stop (fun _ => inl ValueError) open_cache hold_strategy
  = (hold_strategy, inl ValueError)
  /\ events (fst (on_stop (fun _ => inr tt) open_cache hold_strategy))
     = [PositionClosed 7; PositionClosed 9].
Proof.
  destruct (on_stop_closes_after_report (fun _ => inl ValueError) open_cache
              hold_strategy) as [Hfail _].
  destruct (on_stop_closes_after_report (fun _ => inr tt) open_cache
              hold_strategy) as [_ Hok].
  split.
  - by apply Hfail.
  - destruct Hok as (_ & Hev & _); [reflexivity|]. rewrite Hev. reflexivity.
Defined.

(** ** The keys of the betas *)

(** X15.  When the keys of [bar_type] are instruments of the pair, as in
    the configuration of [run_backtest.py], the betas of a strategy built
    by the constructor have exactly the two instruments of the pair as
    keys, after any run. *)
Theorem betas_keys_are_the_pair :
  forall (N : Numerics) (cfg : PairTradingStrategyConfig) (s0 : Strategy)
         (cs : list Cache),
    PairTradingStrategy_init cfg = inr s0 ->
    (forall id, id ∈ map fst (bar_type cfg) -> id ∈ pair_ids cfg) ->
    dom (betas (fst (run cs s0))) = pair_ids cfg.
Proof.
  intros N cfg s0 cs Hinit Hkeys.
  destruct (init_betas cfg s0 Hinit) as (Hcfg & _ & _ & Hdom).
  apply set_eq. intros id. rewrite elem_of_dom.
  destruct (run_dom cs s0 id) as [Hlo Hhi]. split.
  - intros Hs. destruct (Hhi Hs) as [Hin|Hin].
    + rewrite <- Hdom. by apply elem_of_dom.
    + apply Hkeys. by rewrite <- Hcfg.
  - intros Hin. apply Hlo. apply elem_of_dom. by rewrite Hdom.
Qed.

Lemma betas_keys_witness :
  exists cfg s0,
    backtest_config = inr cfg
    /\ PairTradingStrategy_init cfg = inr s0
    /\ dom (betas (fst (run (H := toy_numerics) [estimation_cache] s0)))
       = pair_ids cfg.
Proof.
  eexists. eexists. split; [reflexivity|]. split; [reflexivity|].
  apply betas_keys_are_the_pair; [reflexivity|].
  intros id Hin. unfold pair_ids. simpl in *.
  apply elem_of_cons in Hin as [->|Hin]; [set_solver|].
  apply elem_of_cons in Hin as [->|Hin]; [set_solver|].
  by apply elem_of_nil in Hin.
Defined.

(** ** What one call of [on_bar] logs and raises *)

Lemma leg_quantity_raises price ctr beta lsr e :
  leg_quantity price ctr beta lsr = inl e -> e = ZeroDivisionError.
Proof.
  unfold leg_quantity, py_div. destruct (PrimFloat.eqb _ _); [|done].
  by intros [= <-].
Qed.

Lemma open_loop_raises c ctr lsr items : forall s e,
  snd (open_loop c ctr lsr items s) = inl e ->
  e = KeyError \/ e = AttributeError \/ e = ZeroDivisionError.
Proof.
  induction items as [|[k bt] r IH]; intros s e; [done|].
  cbn [open_loop]. run_monad.
  destruct (betas s !! k) as [beta|]; simpl; [|intros [= <-]; tauto].
  destruct (bar c bt) as [b|]; simpl; [|intros [= <-]; tauto].
  destruct (leg_quantity _ _ _ _) as [e'|q] eqn:Hq; simpl.
  { intros [= <-]. apply leg_quantity_raises in Hq. tauto. }
  destruct (instrument1 s) as [i1|]; simpl; [|intros [= <-]; tauto].
  destruct (maquantity i1) as [mq|]; simpl; [|intros [= <-]; tauto].
  apply IH.
Qed.

Lemma act_raises c sg s e :
  snd (act c sg s) = inl e ->
  e = IndexError \/ e = KeyError \/ e = AttributeError \/ e = ZeroDivisionError.
Proof.
  assert (Hopen : forall o, snd (open_positions c o s) = inl e ->
            e = IndexError \/ e = KeyError \/ e = AttributeError
            \/ e = ZeroDivisionError).
  { intros o. unfold open_positions, get_current_equity. run_monad.
    destruct (head (accounts c)); simpl; [|intros [= <-]; tauto].
    intros He. apply open_loop_raises in He. tauto. }
  destruct sg; cbn [act]; [done|apply Hopen|apply Hopen|].
  unfold _close_all_positions. by rewrite close_loop_events.
Qed.

Lemma append_row_raises c spread_array z_score s e :
  snd (append_row c spread_array z_score s) = inl e ->
  e = IndexError \/ e = KeyError.
Proof.
  unfold append_row. run_monad.
  destruct (dict_get _ (instrument_id_1 _)); simpl; [|intros [= <-]; tauto].
  destruct (dict_get _ (instrument_id_2 _)); simpl; [|intros [= <-]; tauto].
  destruct (betas s !! _); simpl; [|intros [= <-]; tauto].
  destruct (last spread_array); simpl; [done|intros [= <-]; tauto].
Qed.

(** X16.  Whatever the numerical libraries raise, it does not leave
    [on_bar]: an exception that leaves [on_bar] is an [IndexError], a
    [KeyError], an [AttributeError] or a [ZeroDivisionError], raised by
    line 70, by an entry or by the diagnostic row. *)
Theorem on_bar_escaping_exceptions :
  forall (N : Numerics) (c : Cache) (s : Strategy) (e : exn),
    snd (on_bar c s) = inl e ->
    e = IndexError \/ e = KeyError \/ e = AttributeError \/ e = ZeroDivisionError.
Proof.
  intros N c s e.
  destruct (_has_enough_bars c (config s)) eqn:He.
  2:{ unfold on_bar. run_monad. by rewrite He. }
  rewrite on_bar_enough by done. cbn zeta.
  destruct (_ <? _)%Z; [done|].
  set (s1 := after_updates c s).
  unfold on_full_window. run_monad.
  destruct (PrimFloat.eqb _ _); [done|].
  destruct (last (spread s1)) as [x|]; simpl; [|intros [= <-]; tauto].
  destruct (act c _ s1) as [s2 [e'|[]]] eqn:Hact; simpl.
  - intros [= <-]. eapply act_raises. by erewrite Hact.
  - intros Hr. apply append_row_raises in Hr. tauto.
Qed.

Lemma on_bar_escaping_witness :
  AttributeError = IndexError \/ AttributeError = KeyError
  \/ AttributeError = AttributeError \/ AttributeError = ZeroDivisionError.
Proof.
  apply (on_bar_escaping_exceptions failing_numerics tenth_cache
           (pair_strategy (pair_config 3 0.7 0.5) None [0.1; 0.1]%float 1 (-1))).
  vm_compute. reflexivity.
Defined.

(** X17.  [on_bar] never changes the configuration or the two instruments,
    and it logs at most one error per call: the exception of the [try]
    block of [_update_betas], past the guard of line 57.  The exceptions
    of an entry are not logged. *)
Theorem on_bar_frame :
  forall (N : Numerics) (c : Cache) (s : Strategy),
    config (fst (on_bar c s)) = config s
    /\ instrument1 (fst (on_bar c s)) = instrument1 s
    /\ instrument2 (fst (on_bar c s)) = instrument2 s
    /\ (log (fst (on_bar c s)) = log s
        \/ exists e,
             log (fst (on_bar c s)) = log s ++ [e]
             /\ snd (try_update_betas c s) = inl e
             /\ _has_enough_bars c (config s) = true).
Proof.
  intros N c s.
  destruct (_has_enough_bars c (config s)) eqn:He.
  2:{ unfold on_bar. run_monad. rewrite He. simpl. tauto. }
  assert (Hlog : log (after_updates c s) = log s
                 \/ exists e, log (after_updates c s) = log s ++ [e]
                              /\ snd (try_update_betas c s) = inl e
                              /\ true = true).
  { unfold after_updates, bind, _update_betas.
    pose proof (try_update_betas_frame c s) as (_ & _ & _ & _ & Hl & _).
    destruct (try_update_betas c s) as [s1 [e|[]]]; simpl in *.
    - right. exists e.
      pose proof (_update_spread_frame c (log_error e s1)) as (_ & _ & _ & _ & Hl' & _).
      destruct (_update_spread c (log_error e s1)) as [s2 r2]. simpl in *.
      by rewrite Hl', Hl.
    - left.
      pose proof (_update_spread_frame c s1) as (_ & _ & _ & _ & Hl' & _).
      destruct (_update_spread c s1) as [s2 r2]. simpl in *. congruence. }
  pose proof (after_updates_frame c s) as (Hc & _ & _ & Hi1 & Hi2).
  rewrite on_bar_enough by done. cbn zeta.
  destruct (_ <? _)%Z; [simpl; tauto|].
  destruct (on_full_window_cases c (after_updates c s))
    as [[_ ->]|[_ [[_ ->]|(x & _ & Hx)]]]; try (simpl; tauto).
  cbn zeta in Hx.
  pose proof (only_events_act c
                (on_bar_signal (config (after_updates c s)) (_has_open_positions c)
                   ((x - np_mean (spread (after_updates c s)))
                    / np_std (spread (after_updates c s)))%float)
                (after_updates c s)) as (Hc' & Hj1 & Hj2 & _ & _ & _ & Hl').
  destruct Hx as [[e ->]|(_ & row & -> & _)]; simpl;
    rewrite ?Hc', ?Hj1, ?Hj2, ?Hl'; tauto.
Qed.
